(** * The SQL Server adapter of mcp-db-manager

    A shallow embedding of the three variants of [SqlServerAdapter]:

    - [NativeOnly]: the adapter that only talks to msnodesqlv8;
    - [Dual]: the dual-driver adapter, which picks msnodesqlv8 or an mssql
      connection pool in its constructor;
    - [Cjs]: the CommonJS adapter, whose [init] tries an mssql pool first and
      falls back to direct msnodesqlv8 calls.

    Conventions of the model.

    - A JavaScript string is a sequence of code units; the model covers the
      strings whose code units are below 256, one [ascii] per code unit.
    - JavaScript numbers are modelled by integers ([Z]), with [NaN] added
      where [Number(...)] can produce it; the model covers the integer
      values of magnitude below 10^21, the ones that a template literal
      prints as plain decimal text.
    - A promise is modelled by the way it settles: [Resolved v] or
      [Rejected message]; an [Error] is modelled by its [message].
    - The two client libraries (msnodesqlv8 and mssql) are outside the
      repository: they are an oracle [Drivers], whose answers may depend on
      every call made so far, and every call the adapter makes is recorded
      in a trace of [event]s.
    - Console output is not part of the methods; the texts of the log lines
      that carry the connection string are modelled apart, in [Logging]. *)

From Stdlib Require Import ZArith List Bool Ascii String Lia.
From Stdlib Require Import DecimalString.
From Stdlib Require DecimalFacts DecimalNat Finite.
Import ListNotations.
Open Scope string_scope.

(** ** The parts of the JavaScript runtime the adapter uses *)

Module JS.

(** White space and line terminators stripped by [String.prototype.trim],
    among the code units below 256: TAB, LF, VT, FF, CR, SPACE and NBSP. *)
Definition isWhiteSpace (c : ascii) : bool :=
  let n := nat_of_ascii c in
  (n =? 9)%nat || (n =? 10)%nat || (n =? 11)%nat || (n =? 12)%nat
  || (n =? 13)%nat || (n =? 32)%nat || (n =? 160)%nat.

Fixpoint trimStart (s : string) : string :=
  match s with
  | EmptyString => EmptyString
  | String c r => if isWhiteSpace c then trimStart r else s
  end.

Fixpoint trimEnd (s : string) : string :=
  match s with
  | EmptyString => EmptyString
  | String c r =>
      match trimEnd r with
      | EmptyString => if isWhiteSpace c then EmptyString else String c EmptyString
      | r' => String c r'
      end
  end.

(** [s.trim()] *)
Definition trim (s : string) : string := trimEnd (trimStart s).

Definition toUpperChar (c : ascii) : ascii :=
  let n := nat_of_ascii c in
  if (97 <=? n)%nat && (n <=? 122)%nat then ascii_of_nat (n - 32) else c.

(** [s.toUpperCase()].  The letters a..z are mapped to A..Z.  Code units
    128..255 are left as they are: among their upper-case forms only that
    of U+00DF (SS) contains a letter of INSERT, and INSERT has no double S,
    so the two INSERT tests of the adapter evaluate as in JavaScript. *)
Fixpoint toUpperCase (s : string) : string :=
  match s with
  | EmptyString => EmptyString
  | String c r => String (toUpperChar c) (toUpperCase r)
  end.

(** [s.startsWith(p)] *)
Definition startsWith (s p : string) : bool := prefix p s.

(** [s.includes(sub)] *)
Fixpoint includes (s sub : string) : bool :=
  match s with
  | EmptyString => prefix sub EmptyString
  | String _ r => prefix sub s || includes r sub
  end.

(** [s.split(sep)] for a separator of one code unit. *)
Fixpoint split (s : string) (sep : ascii) : list string :=
  match s with
  | EmptyString => [EmptyString]
  | String c r =>
      if Ascii.eqb c sep then EmptyString :: split r sep
      else match split r sep with
           | h :: t => String c h :: t
           | [] => [String c EmptyString]
           end
  end.

(** Decimal text of a number, as template literals and [String(n)] give it
    for integers of magnitude below 10^21 (from there on JavaScript prints
    an exponent, which is outside the model). *)
Definition string_of_nat (n : nat) : string :=
  NilZero.string_of_uint (Nat.to_uint n).

Definition string_of_Z (z : Z) : string :=
  NilZero.string_of_int (Z.to_int z).

(** [s.replace(/c/g, f)] for a pattern that matches the single code unit
    [c]: every occurrence is replaced by the text the callback returns.
    The callback receives the matched text and, as its second argument,
    the offset of the match in the string that is searched (the pattern
    has no capture group). *)
Fixpoint replaceAllFrom (c : ascii) (f : string -> nat -> string)
    (offset : nat) (s : string) : string :=
  match s with
  | EmptyString => EmptyString
  | String d r =>
      if Ascii.eqb d c
      then f (String d EmptyString) offset ++ replaceAllFrom c f (S offset) r
      else String d (replaceAllFrom c f (S offset) r)
  end.

Definition replaceAll (c : ascii) (f : string -> nat -> string) (s : string) : string :=
  replaceAllFrom c f 0 s.

(** Values a caller hands to the adapter: query parameters and the values
    of the free-form [options] object. *)
Inductive jsval :=
| JUndefined
| JNull
| JBool (b : bool)
| JNumber (n : Z)
| JString (s : string).

(** [String(v)], which is what a template literal applies to [v]; a
    number is an integer of magnitude below 10^21. *)
Definition toString (v : jsval) : string :=
  match v with
  | JUndefined => "undefined"
  | JNull => "null"
  | JBool true => "true"
  | JBool false => "false"
  | JNumber n => string_of_Z n
  | JString s => s
  end.

(** Truthiness of an optional string: [undefined] and the empty string are
    falsy. *)
Definition truthyStr (o : option string) : bool :=
  match o with
  | Some s => negb (s =? "")
  | None => false
  end.

(** The array index that a property key denotes, if it denotes one: the
    key is the canonical decimal text of an integer from 0 to 2^32 - 2. *)
Definition arrayIndex (k : string) : option N :=
  match NilZero.uint_of_string k with
  | Some u =>
      let n := N.of_uint u in
      if (NilZero.string_of_uint (N.to_uint n) =? k) && (n <? 4294967295)%N
      then Some n
      else None
  | None => None
  end.

(** Plain objects: own properties in insertion order.  [set] overwrites an
    existing property in place, as assignment and spreading do. *)
Section Objects.
Context {V : Type}.

Definition object := list (string * V).

Fixpoint get (o : object) (k : string) : option V :=
    match o with
    | [] => None
    | (k', v) :: r => if k' =? k then Some v else get r k
    end.

Fixpoint set (o : object) (k : string) (v : V) : object :=
    match o with
    | [] => [(k, v)]
    | (k', v') :: r => if k' =? k then (k, v) :: r else (k', v') :: set r k v
    end.

  (** [{ ...o, ...src }] *)
Definition spread (o src : object) : object :=
    fold_left (fun acc kv => set acc (fst kv) (snd kv)) src o.

  (** ["k" in o] *)
Definition has (o : object) (k : string) : bool :=
    match get o k with Some _ => true | None => false end.

Fixpoint insertByIndex (n : N) (kv : string * V) (l : list (N * (string * V)))
    : list (N * (string * V)) :=
    match l with
    | [] => [(n, kv)]
    | (m, kv') :: r =>
        if (n <? m)%N then (n, kv) :: l else (m, kv') :: insertByIndex n kv r
    end.

  (** The properties whose key is an array index, by ascending index. *)
Fixpoint indexedEntries (o : object) : list (N * (string * V)) :=
    match o with
    | [] => []
    | kv :: r =>
        match arrayIndex (fst kv) with
        | Some n => insertByIndex n kv (indexedEntries r)
        | None => indexedEntries r
        end
    end.

  (** The other properties, in insertion order. *)
Definition namedEntries (o : object) : object :=
    filter (fun kv => match arrayIndex (fst kv) with
                      | Some _ => false
                      | None => true
                      end) o.

  (** [Object.entries(o)]: the properties whose key is an array index come
      first, by ascending index, then the others in insertion order. *)
Definition entries (o : object) : list (string * V) :=
    (map snd (indexedEntries o) ++ namedEntries o)%list.
End Objects.
Arguments object : clear implicits.

End JS.

Import JS.

(** ** Data model *)

(** [SqlServerConnectionInfo], the argument of the constructors.  An
    optional field that is omitted is [None].  The [driver] field is only
    declared and read by the dual-driver variant. *)
Module ConnectionInfo.
Record t := {
    server : string;
    database : string;
    user : option string;
    password : option string;
    port : option Z;
    trustServerCertificate : option bool;
    driver : option string;
    driverVersion : option string;
    options : option (object jsval)
  }.
End ConnectionInfo.

(** The [sql.config] object handed to the mssql library.  [driver] is set
    by the CommonJS variant only. *)
Module PoolConfig.
Record t := {
    server : string;
    database : string;
    port : Z;
    driver : option string;
    user : option string;
    password : option string;
    options : object jsval
  }.
End PoolConfig.

(** Numbers in what a driver returns. *)
Inductive jsnum :=
| NaN
| Num (z : Z).

(** Column values of a returned row and values of output parameters: SQL
    NULL, bits and integers.  Text columns are left out: the adapter reads
    two fields only, [LastID] and [rowsAffected], and both are numeric. *)
Inductive colval :=
| CUndefined
| CNull
| CBool (b : bool)
| CNumber (n : jsnum).

Definition row := object colval.

(** What msnodesqlv8 passes to the callback as [results] ([any[] | any]). *)
Inductive results :=
| RUndefined
| RNull
| RNumber (n : jsnum)
| RObject (o : row)
| RArray (rows : list row).

Definition truthyNum (n : jsnum) : bool :=
  match n with
  | NaN => false
  | Num z => negb (z =? 0)%Z
  end.

Definition truthyCol (v : colval) : bool :=
  match v with
  | CUndefined | CNull => false
  | CBool b => b
  | CNumber n => truthyNum n
  end.

Definition truthyResults (r : results) : bool :=
  match r with
  | RUndefined | RNull => false
  | RNumber n => truthyNum n
  | RObject _ | RArray _ => true
  end.

(** [Number(v)] *)
Definition Number_ (v : colval) : jsnum :=
  match v with
  | CUndefined => NaN
  | CNull => Num 0
  | CBool b => Num (if b then 1 else 0)
  | CNumber n => n
  end.

(** [v > 0] *)
Definition gt0 (v : colval) : bool :=
  match Number_ v with
  | NaN => false
  | Num z => (0 <? z)%Z
  end.

(** What [request.query] of mssql resolves with, as far as the adapter
    reads it: the first record set (absent when the statement returns no
    rows) and the values of the output parameters. *)
Record QueryResult := {
  recordset : option (list row);
  output : row
}.

(** The value [run] resolves with. *)
Record RunResult := {
  changes : colval;
  lastID : colval
}.

(** How a promise settles.  A rejection carries the message of its
    [Error]. *)
Inductive promise (A : Type) :=
| Resolved (a : A)
| Rejected (message : string).
Arguments Resolved {A} a.
Arguments Rejected {A} message.

(** ** The client libraries *)

(** Handle of an open mssql connection pool. *)
Definition poolHandle := nat.

(** The calls the adapter makes into the two libraries. *)
Inductive event :=
| SqlConnect (cfg : option PoolConfig.t)
    (* sql.connect(cfg), new sql.ConnectionPool(cfg).connect(); cfg is None
       when the config field of the adapter was never assigned *)
| NativeQuery (cs q : string) (ps : option (list jsval))
    (* msnodesqlv8.query(cs, q, ps, cb); ps is None in the call without a
       parameter array, msnodesqlv8.query(cs, q, cb) *)
| PoolQuery (p : poolHandle) (inputs : list (string * jsval)) (outputs : list string)
    (q : string)
    (* request = p.request(); request.input(name, value) for each input;
       request.output(name, ...) for each output; request.query(q) *)
| PoolBatch (p : poolHandle) (q : string)
    (* p.request().batch(q) *)
| PoolClose (p : poolHandle).
    (* p.close() *)

(** The libraries as an oracle: the answer to a call may depend on all
    calls made before it.  A failing call answers with the message of the
    error it reports. *)
Record Drivers := {
  sql_connect : list event -> option PoolConfig.t -> string + poolHandle;
  native_query : list event -> string -> string -> option (list jsval) -> string + results;
  pool_query : list event -> poolHandle -> list (string * jsval) -> list string -> string ->
               string + QueryResult;
  pool_batch : list event -> poolHandle -> string -> option string;
  pool_close : list event -> poolHandle -> option string
}.

(** Computations that call the libraries: the trace of calls is threaded
    through. *)
Definition M (A : Type) : Type := list event -> list event * A.

Definition ret {A} (a : A) : M A := fun tr => (tr, a).

Definition bind {A B} (m : M A) (k : A -> M B) : M B :=
  fun tr => let (tr', a) := m tr in k a tr'.

Declare Scope m_scope.
Delimit Scope m_scope with M.
Notation "x <- m ;; k" := (bind m (fun x => k))
  (at level 61, m at next level, right associativity) : m_scope.
Open Scope m_scope.

Section Calls.
Variable d : Drivers.

Definition sqlConnect (cfg : option PoolConfig.t) : M (string + poolHandle) :=
    fun tr => ((tr ++ [SqlConnect cfg])%list, sql_connect d tr cfg).

Definition nativeQuery (cs q : string) (ps : option (list jsval)) : M (string + results) :=
    fun tr => ((tr ++ [NativeQuery cs q ps])%list, native_query d tr cs q ps).

Definition poolQuery (p : poolHandle) (inputs : list (string * jsval)) (outputs : list string)
      (q : string) : M (string + QueryResult) :=
    fun tr => ((tr ++ [PoolQuery p inputs outputs q])%list, pool_query d tr p inputs outputs q).

Definition poolBatch (p : poolHandle) (q : string) : M (option string) :=
    fun tr => ((tr ++ [PoolBatch p q])%list, pool_batch d tr p q).

Definition poolClose (p : poolHandle) : M (option string) :=
    fun tr => ((tr ++ [PoolClose p])%list, pool_close d tr p).
End Calls.

(** ** The msnodesqlv8 path

    [prepareConnectionString], [testConnection], the prepare step and the
    three query methods over msnodesqlv8 are the same code, line for line,
    in the native-only adapter and in the dual-driver adapter (where the
    methods are called [prepareNativeQuery], [allWithNativeDriver],
    [runWithNativeDriver] and [execWithNativeDriver]).  They are modelled
    once, over the connection string of the adapter. *)

Module NativePath.

Import ConnectionInfo.

(** An optional string inside a template literal. *)
Definition interp (o : option string) : string :=
  match o with
  | Some s => s
  | None => "undefined"
  end.

Definition truthyBool (o : option bool) : bool :=
  match o with
  | Some b => b
  | None => false
  end.

Definition truthyPort (o : option Z) : bool :=
  match o with
  | Some p => negb (p =? 0)%Z
  | None => false
  end.

Definition interpPort (o : option Z) : string :=
  match o with
  | Some p => string_of_Z p
  | None => "undefined"
  end.

Definition prepareConnectionString (driverVersion : string) (connectionInfo : t) : string :=
  let s0 :=
    if truthyStr (user connectionInfo) && truthyStr (password connectionInfo)
    then "Driver={ODBC Driver " ++ driverVersion ++ " for SQL Server};Server="
         ++ server connectionInfo ++ ";Database=" ++ database connectionInfo
         ++ ";UID=" ++ interp (user connectionInfo)
         ++ ";PWD=" ++ interp (password connectionInfo) ++ ";"
    else "Driver={ODBC Driver " ++ driverVersion ++ " for SQL Server};Server="
         ++ server connectionInfo ++ ";Database=" ++ database connectionInfo
         ++ ";Trusted_Connection=Yes;" in
  let s1 :=
    if truthyBool (trustServerCertificate connectionInfo)
    then s0 ++ "TrustServerCertificate=Yes;"
    else s0 in
  let s2 :=
    if truthyPort (port connectionInfo)
    then s1 ++ "Port=" ++ interpPort (port connectionInfo) ++ ";"
    else s1 in
  match options connectionInfo with
  | Some o =>
      fold_left (fun acc kv => acc ++ fst kv ++ "=" ++ toString (snd kv) ++ ";")
        (entries o) s2
  | None => s2
  end.

(** [connectionInfo.driverVersion || "17"] *)
Definition driverVersionOrDefault (connectionInfo : t) : string :=
  if truthyStr (driverVersion connectionInfo)
  then interp (driverVersion connectionInfo)
  else "17".

Definition prepareQuery (query : string) (params : list jsval) : string * list jsval :=
  match params with
  | [] => (query, [])
  | _ :: _ => (query, params)
  end.

(** [query.trim().toUpperCase().startsWith("INSERT")] *)
Definition isInsert (query : string) : bool :=
  startsWith (toUpperCase (trim query)) "INSERT".

(** [o.k]: a property that is absent reads as [undefined]. *)
Definition prop (o : row) (k : string) : colval :=
  match get o k with
  | Some v => v
  | None => CUndefined
  end.

(** The callback of [run] for an INSERT: [lastID] is read from the last
    element of [results]. *)
Definition lastIDOfResults (res : results) : jsnum :=
  match res with
  | RArray rows =>
      match nth_error rows (List.length rows - 1) with
      | Some last =>
          if truthyCol (prop last "LastID") then Number_ (prop last "LastID") else Num 0
      | None => Num 0
      end
  | _ => Num 0
  end.

(** The callback of [run] for another statement. *)
Definition changesOfResults (res : results) : colval :=
  match res with
  | RNumber n => CNumber n
  | RObject o => if has o "rowsAffected" then prop o "rowsAffected" else CNumber (Num 0)
  | _ => CNumber (Num 0)
  end.

Section Methods.
Variable d : Drivers.
Variable connectionString : string.

Definition testConnection : M (promise unit) :=
  r <- nativeQuery d connectionString "SELECT 1 AS TestConnection" None ;;
  ret (match r with
       | inl message => Rejected message
       | inr _ => Resolved tt
       end).

Definition all (query : string) (params : list jsval) : M (promise results) :=
  let (preparedQuery, preparedParams) := prepareQuery query params in
  r <- nativeQuery d connectionString preparedQuery (Some preparedParams) ;;
  ret (match r with
       | inl message => Rejected ("SQL Server query error: " ++ message)
       | inr res => Resolved (if truthyResults res then res else RArray [])
       end).

Definition run (query : string) (params : list jsval) : M (promise RunResult) :=
  if isInsert query then
    let modifiedQuery := query ++ "; SELECT SCOPE_IDENTITY() AS LastID" in
    let (preparedQuery, preparedParams) := prepareQuery modifiedQuery params in
    r <- nativeQuery d connectionString preparedQuery (Some preparedParams) ;;
    ret (match r with
         | inl message => Rejected ("SQL Server query error: " ++ message)
         | inr res =>
             let lastID := lastIDOfResults res in
             Resolved {| changes := CNumber (Num (if gt0 (CNumber lastID) then 1 else 0));
                         lastID := CNumber lastID |}
         end)
  else
    let (preparedQuery, preparedParams) := prepareQuery query params in
    r <- nativeQuery d connectionString preparedQuery (Some preparedParams) ;;
    ret (match r with
         | inl message => Rejected ("SQL Server query error: " ++ message)
         | inr res =>
             Resolved {| changes := changesOfResults res; lastID := CNumber (Num 0) |}
         end).

Definition exec (query : string) : M (promise unit) :=
  r <- nativeQuery d connectionString query None ;;
  ret (match r with
       | inl message => Rejected ("SQL Server batch error: " ++ message)
       | inr _ => Resolved tt
       end).

End Methods.

End NativePath.

(** ** Schema-introspection helpers

    The same text in the native-only and in the dual-driver adapter. *)

Module Introspection.

Definition listTablesText : string :=
  "SELECT TABLE_NAME as name FROM INFORMATION_SCHEMA.TABLES WHERE TABLE_TYPE = 'BASE TABLE' ORDER BY TABLE_NAME".

Definition describeTablePrefix : string :=
  "
      SELECT 
        c.COLUMN_NAME as name,
        c.DATA_TYPE as type,
        CASE WHEN c.IS_NULLABLE = 'YES' THEN 1 ELSE 0 END as notnull,
        CASE WHEN pk.CONSTRAINT_TYPE = 'PRIMARY KEY' THEN 1 ELSE 0 END as pk,
        c.COLUMN_DEFAULT as dflt_value
      FROM 
        INFORMATION_SCHEMA.COLUMNS c
      LEFT JOIN 
        INFORMATION_SCHEMA.KEY_COLUMN_USAGE kcu ON c.TABLE_NAME = kcu.TABLE_NAME AND c.COLUMN_NAME = kcu.COLUMN_NAME
      LEFT JOIN 
        INFORMATION_SCHEMA.TABLE_CONSTRAINTS pk ON kcu.CONSTRAINT_NAME = pk.CONSTRAINT_NAME AND pk.CONSTRAINT_TYPE = 'PRIMARY KEY'
      WHERE 
        c.TABLE_NAME = '".

Definition describeTableSuffix : string :=
  "'
      ORDER BY 
        c.ORDINAL_POSITION
    ".

End Introspection.

(** ** The native-only adapter *)

Module NativeOnly.

Record SqlServerAdapter := {
  connectionString : string;
  server : string;
  database : string;
  user : option string;
  password : option string;
  driverVersion : string
}.

Definition constructor (connectionInfo : ConnectionInfo.t) : SqlServerAdapter :=
  let driverVersion := NativePath.driverVersionOrDefault connectionInfo in
  {| server := ConnectionInfo.server connectionInfo;
     database := ConnectionInfo.database connectionInfo;
     user := ConnectionInfo.user connectionInfo;
     password := ConnectionInfo.password connectionInfo;
     driverVersion := driverVersion;
     connectionString := NativePath.prepareConnectionString driverVersion connectionInfo |}.

Definition prepareQuery := NativePath.prepareQuery.

Section Methods.
Variable d : Drivers.
Variable this : SqlServerAdapter.

Definition init : M (promise unit) :=
  t <- NativePath.testConnection d (connectionString this) ;;
  ret (match t with
       | Resolved _ => Resolved tt
       | Rejected message => Rejected ("Failed to connect to SQL Server: " ++ message)
       end).

Definition all (query : string) (params : list jsval) : M (promise results) :=
  NativePath.all d (connectionString this) query params.

Definition run (query : string) (params : list jsval) : M (promise RunResult) :=
  NativePath.run d (connectionString this) query params.

Definition exec (query : string) : M (promise unit) :=
  NativePath.exec d (connectionString this) query.

Definition close : M (promise unit) := ret (Resolved tt).

End Methods.

Definition getListTablesQuery (this : SqlServerAdapter) : string :=
  Introspection.listTablesText.

Definition getDescribeTableQuery (this : SqlServerAdapter) (tableName : string) : string :=
  Introspection.describeTablePrefix ++ tableName ++ Introspection.describeTableSuffix.

End NativeOnly.

(** ** Code shared by the two adapters that can use an mssql pool *)

Module PoolPath.

Fixpoint mapiFrom {A B} (f : nat -> A -> B) (index : nat) (l : list A) : list B :=
  match l with
  | [] => []
  | x :: r => f index x :: mapiFrom f (S index) r
  end.

(** [params.forEach((param, index) => request.input(`param${index}`, param))]:
    the inputs bound on the request, in binding order. *)
Definition bindParams (params : list jsval) : list (string * jsval) :=
  mapiFrom (fun index param => ("param" ++ string_of_nat index, param)) 0 params.

(** [query.replace(/\?/g, (_, i) => `@param${i}`)] *)
Definition namedQuery (query : string) : string :=
  replaceAll "?" (fun _ i => "@param" ++ string_of_nat i) query.

(** [a[0]] on the array a [split] returns, which is never empty. *)
Definition first (parts : list string) : string :=
  match parts with
  | h :: _ => h
  | [] => EmptyString
  end.

(** The server string of the constructors, parsed as [host\instance]:
    [serverName] and [instanceName]. *)
Definition hasInstance (server : string) : bool := includes server "\".

Definition serverNameOf (server : string) : string :=
  if hasInstance server then first (split server "\") else server.

Definition instanceNameOf (server : string) : option string :=
  if hasInstance server then nth_error (split server "\") 1 else None.

(** [x ?? true] *)
Definition orTrue (o : option bool) : bool :=
  match o with
  | Some b => b
  | None => true
  end.

(** [connectionInfo.port || 1433] *)
Definition portOrDefault (o : option Z) : Z :=
  match o with
  | Some p => if (p =? 0)%Z then 1433%Z else p
  | None => 1433%Z
  end.

(** The [options] object of the pool configuration:
    [{ trustServerCertificate: ... ?? true, ...(instanceName && { instanceName }),
       ...connectionInfo.options }], to which Windows authentication adds two
    properties when no user and password are given. *)
Definition poolOptions (connectionInfo : ConnectionInfo.t) : object jsval :=
  let instanceName := instanceNameOf (ConnectionInfo.server connectionInfo) in
  let o0 := [("trustServerCertificate",
              JBool (orTrue (ConnectionInfo.trustServerCertificate connectionInfo)))] in
  let o1 := match instanceName with
            | Some i => if truthyStr instanceName then set o0 "instanceName" (JString i) else o0
            | None => o0
            end in
  let o2 := match ConnectionInfo.options connectionInfo with
            | Some o => spread o1 o
            | None => o1
            end in
  if truthyStr (ConnectionInfo.user connectionInfo)
     && truthyStr (ConnectionInfo.password connectionInfo)
  then o2
  else set (set o2 "trustedConnection" (JBool true)) "enableArithAbort" (JBool true).

Definition recordsetResults (r : QueryResult) : results :=
  match recordset r with
  | Some rows => RArray rows
  | None => RUndefined
  end.

End PoolPath.

(** ** The dual-driver adapter *)

Module Dual.

Import PoolPath.

Record SqlServerAdapter := {
  pool : option poolHandle;
  config : option PoolConfig.t;
  connectionString : string;
  server : string;
  database : string;
  user : option string;
  password : option string;
  useNativeDriver : bool;
  driverVersion : string
}.

Definition setPool (this : SqlServerAdapter) (p : option poolHandle) : SqlServerAdapter :=
  {| pool := p;
     config := config this;
     connectionString := connectionString this;
     server := server this;
     database := database this;
     user := user this;
     password := password this;
     useNativeDriver := useNativeDriver this;
     driverVersion := driverVersion this |}.

(** The choice of the driver in the constructor.  [msnodesqlv8] is the
    truthiness of the binding the module imports under that name. *)
Definition chooseNativeDriver (msnodesqlv8 : bool) (connectionInfo : ConnectionInfo.t) : bool :=
  match ConnectionInfo.driver connectionInfo with
  | Some dr => if dr =? "msnodesqlv8" then true else if msnodesqlv8 then true else false
  | None => if msnodesqlv8 then true else false
  end.

Definition poolConfig (connectionInfo : ConnectionInfo.t) : PoolConfig.t :=
  let serverName := serverNameOf (ConnectionInfo.server connectionInfo) in
  let instanceName := instanceNameOf (ConnectionInfo.server connectionInfo) in
  let auth := truthyStr (ConnectionInfo.user connectionInfo)
              && truthyStr (ConnectionInfo.password connectionInfo) in
  {| PoolConfig.server := serverName ++ "\" ++ NativePath.interp instanceName;
     PoolConfig.database := ConnectionInfo.database connectionInfo;
     PoolConfig.port := portOrDefault (ConnectionInfo.port connectionInfo);
     PoolConfig.driver := None;
     PoolConfig.user := if auth then ConnectionInfo.user connectionInfo else None;
     PoolConfig.password := if auth then ConnectionInfo.password connectionInfo else None;
     PoolConfig.options := poolOptions connectionInfo |}.

Definition constructor (msnodesqlv8 : bool) (connectionInfo : ConnectionInfo.t)
    : SqlServerAdapter :=
  let driverVersion := NativePath.driverVersionOrDefault connectionInfo in
  let useNativeDriver := chooseNativeDriver msnodesqlv8 connectionInfo in
  {| pool := None;
     config := if useNativeDriver then None else Some (poolConfig connectionInfo);
     connectionString :=
       if useNativeDriver
       then NativePath.prepareConnectionString driverVersion connectionInfo
       else EmptyString;
     server := ConnectionInfo.server connectionInfo;
     database := ConnectionInfo.database connectionInfo;
     user := ConnectionInfo.user connectionInfo;
     password := ConnectionInfo.password connectionInfo;
     useNativeDriver := useNativeDriver;
     driverVersion := driverVersion |}.

(** [query.trim().split(" ")[0].toUpperCase()] and the test on it. *)
Definition getAffectedRows (query : string) (lastID : colval) : Z :=
  let queryType := toUpperCase (first (split (trim query) " ")) in
  if (queryType =? "INSERT") && gt0 lastID then 1%Z else 0%Z.

Definition prepareNativeQuery := NativePath.prepareQuery.

Section Methods.
Variable d : Drivers.
Variable this : SqlServerAdapter.

Definition init : M (SqlServerAdapter * promise unit) :=
  if useNativeDriver this then
    t <- NativePath.testConnection d (connectionString this) ;;
    ret (match t with
         | Resolved _ => (this, Resolved tt)
         | Rejected message =>
             (this, Rejected ("Failed to connect to SQL Server: " ++ message))
         end)
  else
    r <- sqlConnect d (config this) ;;
    ret (match r with
         | inr p => (setPool this (Some p), Resolved tt)
         | inl message =>
             (this, Rejected ("Failed to connect to SQL Server: " ++ message))
         end).

Definition allWithNativeDriver (query : string) (params : list jsval) : M (promise results) :=
  NativePath.all d (connectionString this) query params.

Definition allWithMssql (query : string) (params : list jsval) : M (promise results) :=
  match pool this with
  | None => ret (Rejected "Database not initialized")
  | Some p =>
      let inputs := bindParams params in
      let preparedQuery := namedQuery query in
      r <- poolQuery d p inputs [] preparedQuery ;;
      ret (match r with
           | inl message => Rejected ("SQL Server query error: " ++ message)
           | inr result => Resolved (recordsetResults result)
           end)
  end.

Definition all (query : string) (params : list jsval) : M (promise results) :=
  if useNativeDriver this
  then allWithNativeDriver query params
  else allWithMssql query params.

Definition runWithNativeDriver (query : string) (params : list jsval) : M (promise RunResult) :=
  NativePath.run d (connectionString this) query params.

Definition runWithMssql (query : string) (params : list jsval) : M (promise RunResult) :=
  match pool this with
  | None => ret (Rejected "Database not initialized")
  | Some p =>
      let inputs := bindParams params in
      let preparedQuery := namedQuery query in
      if NativePath.isInsert query then
        let updatedQuery := preparedQuery ++ "; SELECT @insertedId = SCOPE_IDENTITY();" in
        r <- poolQuery d p inputs ["insertedId"] updatedQuery ;;
        ret (match r with
             | inl message => Rejected ("SQL Server query error: " ++ message)
             | inr result =>
                 let insertedId := NativePath.prop (output result) "insertedId" in
                 let lastID := if truthyCol insertedId then insertedId else CNumber (Num 0) in
                 Resolved {| changes := CNumber (Num (getAffectedRows query lastID));
                             lastID := lastID |}
             end)
      else
        r <- poolQuery d p inputs [] preparedQuery ;;
        ret (match r with
             | inl message => Rejected ("SQL Server query error: " ++ message)
             | inr result =>
                 let lastID := CNumber (Num 0) in
                 Resolved {| changes := CNumber (Num (getAffectedRows query lastID));
                             lastID := lastID |}
             end)
  end.

Definition run (query : string) (params : list jsval) : M (promise RunResult) :=
  if useNativeDriver this
  then runWithNativeDriver query params
  else runWithMssql query params.

Definition execWithNativeDriver (query : string) : M (promise unit) :=
  NativePath.exec d (connectionString this) query.

Definition execWithMssql (query : string) : M (promise unit) :=
  match pool this with
  | None => ret (Rejected "Database not initialized")
  | Some p =>
      r <- poolBatch d p query ;;
      ret (match r with
           | Some message => Rejected ("SQL Server batch error: " ++ message)
           | None => Resolved tt
           end)
  end.

Definition exec (query : string) : M (promise unit) :=
  if useNativeDriver this
  then execWithNativeDriver query
  else execWithMssql query.

Definition close : M (SqlServerAdapter * promise unit) :=
  if useNativeDriver this then ret (this, Resolved tt)
  else match pool this with
       | Some p =>
           r <- poolClose d p ;;
           ret (match r with
                | Some message => (this, Rejected message)
                | None => (setPool this None, Resolved tt)
                end)
       | None => ret (this, Resolved tt)
       end.

End Methods.

Definition getListTablesQuery (this : SqlServerAdapter) : string :=
  Introspection.listTablesText.

Definition getDescribeTableQuery (this : SqlServerAdapter) (tableName : string) : string :=
  Introspection.describeTablePrefix ++ tableName ++ Introspection.describeTableSuffix.

End Dual.

(** ** The CommonJS adapter: pool first, direct calls as a fallback *)

Module Cjs.

Import PoolPath.

(** [usingDirectConnection] is not assigned by the constructor; the code
    only ever tests its truthiness, so [undefined] is modelled as [false].
    [directConnection] is assigned [null] once and never read; it is left
    out. *)
Record SqlServerAdapter := {
  pool : option poolHandle;
  server : string;
  database : string;
  user : option string;
  password : option string;
  config : PoolConfig.t;
  directConnectionString : string;
  usingDirectConnection : bool
}.

Definition setPool (this : SqlServerAdapter) (p : option poolHandle) : SqlServerAdapter :=
  {| pool := p;
     server := server this;
     database := database this;
     user := user this;
     password := password this;
     config := config this;
     directConnectionString := directConnectionString this;
     usingDirectConnection := usingDirectConnection this |}.

Definition setUsingDirectConnection (this : SqlServerAdapter) (b : bool) : SqlServerAdapter :=
  {| pool := pool this;
     server := server this;
     database := database this;
     user := user this;
     password := password this;
     config := config this;
     directConnectionString := directConnectionString this;
     usingDirectConnection := b |}.

Definition constructor (connectionInfo : ConnectionInfo.t) : SqlServerAdapter :=
  let serverName := serverNameOf (ConnectionInfo.server connectionInfo) in
  let auth := truthyStr (ConnectionInfo.user connectionInfo)
              && truthyStr (ConnectionInfo.password connectionInfo) in
  {| pool := None;
     server := ConnectionInfo.server connectionInfo;
     database := ConnectionInfo.database connectionInfo;
     user := ConnectionInfo.user connectionInfo;
     password := ConnectionInfo.password connectionInfo;
     config :=
       {| PoolConfig.server := serverName;
          PoolConfig.database := ConnectionInfo.database connectionInfo;
          PoolConfig.port := portOrDefault (ConnectionInfo.port connectionInfo);
          PoolConfig.driver := Some "msnodesqlv8";
          PoolConfig.user := if auth then ConnectionInfo.user connectionInfo else None;
          PoolConfig.password := if auth then ConnectionInfo.password connectionInfo else None;
          PoolConfig.options := poolOptions connectionInfo |};
     directConnectionString :=
       if auth
       then "Driver={ODBC Driver 17 for SQL Server};Server="
            ++ ConnectionInfo.server connectionInfo
            ++ ";Database=" ++ ConnectionInfo.database connectionInfo
            ++ ";UID=" ++ NativePath.interp (ConnectionInfo.user connectionInfo)
            ++ ";PWD=" ++ NativePath.interp (ConnectionInfo.password connectionInfo) ++ ";"
       else "Driver={ODBC Driver 17 for SQL Server};Server="
            ++ ConnectionInfo.server connectionInfo
            ++ ";Database=" ++ ConnectionInfo.database connectionInfo
            ++ ";Trusted_Connection=Yes;";
     usingDirectConnection := false |}.

Definition isSome {A} (o : option A) : bool :=
  match o with
  | Some _ => true
  | None => false
  end.

Section Methods.
Variable d : Drivers.
Variable this : SqlServerAdapter.

Definition connectWithMssql : M (SqlServerAdapter * promise bool) :=
  r <- sqlConnect d (Some (config this)) ;;
  ret (match r with
       | inr p => (setPool this (Some p), Resolved true)
       | inl message => (this, Rejected message)
       end).

Definition connectWithMsnodesqlv8 : M (SqlServerAdapter * promise bool) :=
  r <- nativeQuery d (directConnectionString this) "SELECT @@VERSION AS Version" None ;;
  ret (match r with
       | inl message => (this, Rejected message)
       | inr _ => (setUsingDirectConnection this true, Resolved true)
       end).

Definition allDirect (query : string) (params : list jsval) : M (promise results) :=
  r <- nativeQuery d (directConnectionString this) query None ;;
  ret (match r with
       | inl message => Rejected ("SQL Server direct query error: " ++ message)
       | inr res => Resolved res
       end).

(** The last branch, no pool and no direct flag, is the first one again:
    it is never reached. *)
Definition all (query : string) (params : list jsval) : M (promise results) :=
  if negb (isSome (pool this)) && negb (usingDirectConnection this)
  then ret (Rejected "Database not initialized")
  else if usingDirectConnection this
  then allDirect query params
  else match pool this with
       | Some p =>
           let inputs := bindParams params in
           let preparedQuery := namedQuery query in
           r <- poolQuery d p inputs [] preparedQuery ;;
           ret (match r with
                | inl message => Rejected ("SQL Server query error: " ++ message)
                | inr result => Resolved (recordsetResults result)
                end)
       | None => ret (Rejected "Database not initialized")
       end.

Definition close : M (SqlServerAdapter * promise unit) :=
  match pool this with
  | Some p =>
      r <- poolClose d p ;;
      ret (match r with
           | Some message => (this, Rejected message)
           | None => (setUsingDirectConnection (setPool this None) false, Resolved tt)
           end)
  | None => ret (setUsingDirectConnection this false, Resolved tt)
  end.

End Methods.

Definition init (d : Drivers) (this : SqlServerAdapter) : M (SqlServerAdapter * promise unit) :=
  c <- connectWithMssql d this ;;
  match c with
  | (this1, Resolved _) => ret (this1, Resolved tt)
  | (this1, Rejected _) =>
      c2 <- connectWithMsnodesqlv8 d this1 ;;
      ret (match c2 with
           | (this2, Resolved _) => (this2, Resolved tt)
           | (this2, Rejected message) =>
               (this2, Rejected ("Failed to connect to SQL Server: " ++ message))
           end)
  end.

(** The [connectionMethod] that [getMetadata] reports. *)
Definition connectionMethod (this : SqlServerAdapter) : string :=
  if usingDirectConnection this then "direct msnodesqlv8" else "mssql pool".

End Cjs.

(** ** The lifetime of a dual-driver adapter

    A caller holds one adapter and calls its methods one after the other;
    each method runs on the adapter the previous one left. *)

Module Lifetime.

Inductive op :=
| Init
| All (query : string) (params : list jsval)
| Run (query : string) (params : list jsval)
| Exec (query : string)
| Close.

Definition step (d : Drivers) (st : list event * Dual.SqlServerAdapter) (o : op)
    : list event * Dual.SqlServerAdapter :=
  let (tr, this) := st in
  match o with
  | Init => let r := Dual.init d this tr in (fst r, fst (snd r))
  | All query params => (fst (Dual.all d this query params tr), this)
  | Run query params => (fst (Dual.run d this query params tr), this)
  | Exec query => (fst (Dual.exec d this query tr), this)
  | Close => let r := Dual.close d this tr in (fst r, fst (snd r))
  end.

Definition steps (d : Drivers) (ops : list op) (st : list event * Dual.SqlServerAdapter)
    : list event * Dual.SqlServerAdapter :=
  fold_left (step d) ops st.

(** Calls to msnodesqlv8, as opposed to calls to mssql. *)
Definition isNativeEvent (e : event) : bool :=
  match e with
  | NativeQuery _ _ _ => true
  | _ => false
  end.

End Lifetime.

(** ** Sample inputs

    Connection parameters and driver behaviours used to evaluate the
    adapters on concrete inputs. *)

Module Samples.

(** [{ server: "HOST", database: "master" }] *)
Definition hostOnly : ConnectionInfo.t :=
  {| ConnectionInfo.server := "HOST";
     ConnectionInfo.database := "master";
     ConnectionInfo.user := None;
     ConnectionInfo.password := None;
     ConnectionInfo.port := None;
     ConnectionInfo.trustServerCertificate := None;
     ConnectionInfo.driver := None;
     ConnectionInfo.driverVersion := None;
     ConnectionInfo.options := None |}.

(** [{ server: "HOST", database: "master", driver: "msnodesqlv8" }] *)
Definition hostOnlyNative : ConnectionInfo.t :=
  {| ConnectionInfo.server := "HOST";
     ConnectionInfo.database := "master";
     ConnectionInfo.user := None;
     ConnectionInfo.password := None;
     ConnectionInfo.port := None;
     ConnectionInfo.trustServerCertificate := None;
     ConnectionInfo.driver := Some "msnodesqlv8";
     ConnectionInfo.driverVersion := None;
     ConnectionInfo.options := None |}.

(** Libraries that give the same answers whatever the call. *)
Definition constantDrivers (connect : string + poolHandle) (native : string + results)
    (query : string + QueryResult) : Drivers :=
  {| sql_connect := fun _ _ => connect;
     native_query := fun _ _ _ _ => native;
     pool_query := fun _ _ _ _ _ => query;
     pool_batch := fun _ _ _ => None;
     pool_close := fun _ _ => None |}.

Definition noRows : QueryResult := {| recordset := None; output := [] |}.

(** No pool can be opened; msnodesqlv8 answers every query with no rows. *)
Definition poolDown : Drivers :=
  constantDrivers (inl "ECONNREFUSED") (inr (RArray [])) (inl "ECONNCLOSED").

(** A pool can be opened. *)
Definition poolUp : Drivers :=
  constantDrivers (inr 1) (inr (RArray [])) (inr noRows).

(** Neither library can reach the server. *)
Definition allDown : Drivers :=
  constantDrivers (inl "ECONNREFUSED") (inl "Login timeout expired") (inl "ECONNCLOSED").

(** msnodesqlv8 answers with a count of rows. *)
Definition nativeCount : Drivers :=
  constantDrivers (inl "ECONNREFUSED") (inr (RNumber (Num 3))) (inl "ECONNCLOSED").

(** msnodesqlv8 answers with one row that carries the identity 5. *)
Definition nativeIdentity : Drivers :=
  constantDrivers (inl "ECONNREFUSED")
    (inr (RArray [[("LastID", CNumber (Num 5))]])) (inl "ECONNCLOSED").

(** The pool answers with no rows and the identity 7 in the output
    parameter. *)
Definition poolIdentity : Drivers :=
  constantDrivers (inr 1) (inr (RArray []))
    (inr {| recordset := None; output := [("insertedId", CNumber (Num 7))] |}).

(** The pool answers with a row that carries a [LastID] column and with
    NULL in the output parameter. *)
Definition poolRowOnly : Drivers :=
  constantDrivers (inr 1) (inr (RArray []))
    (inr {| recordset := Some [[("LastID", CNumber (Num 9))]];
            output := [("insertedId", CNull)] |}).

End Samples.

(** ** Log lines that carry the connection string

    Before it probes the server, [init] of the native-only and of the
    dual-driver adapter prints the connection string with
    [replace(/PWD=.*?;/, "PWD=*****;")] applied; [connectWithMsnodesqlv8] of
    the CommonJS adapter prints its direct connection string with
    [replace(/PWD=[^;]+/, "PWD=*****")] applied.  The two replacements and
    the two lines are modelled here, as functions of the connection
    string. *)

Module Logging.

(** Line terminators, which [.] does not match, among the code units
    below 256: LF and CR. *)
Definition isLineTerminator (c : ascii) : bool :=
  (nat_of_ascii c =? 10)%nat || (nat_of_ascii c =? 13)%nat.

(** [s] without the prefix [p], when [p] is a prefix of [s]. *)
Fixpoint stripPrefix (p s : string) : option string :=
  match p, s with
  | EmptyString, _ => Some s
  | String a p', String b s' => if Ascii.eqb a b then stripPrefix p' s' else None
  | String _ _, EmptyString => None
  end.

(** [.*?;] matched at the start of [s]: the text after the first
    semicolon, when no line terminator comes before it. *)
Fixpoint lazyUntilSemicolon (s : string) : option string :=
  match s with
  | EmptyString => None
  | String c r =>
      if Ascii.eqb c ";" then Some r
      else if isLineTerminator c then None
      else lazyUntilSemicolon r
  end.

(** The text from the first semicolon of [s] on. *)
Fixpoint fromSemicolon (s : string) : string :=
  match s with
  | EmptyString => EmptyString
  | String c r => if Ascii.eqb c ";" then s else fromSemicolon r
  end.

(** [[^;]+] matched at the start of [s]: the text after the longest run of
    code units other than semicolons, when that run is not empty. *)
Definition greedyNonSemicolons (s : string) : option string :=
  match s with
  | EmptyString => None
  | String c r => if Ascii.eqb c ";" then None else Some (fromSemicolon r)
  end.

(** [s.replace(re, replacement)] for a pattern [re] without the [g] flag
    that is [PWD=] followed by a part matched by [value]: the leftmost
    match is replaced, once.  [value] answers with the text after the
    match. *)
Fixpoint replaceFirstPwd (value : string -> option string) (replacement : string)
    (s : string) : string :=
  match s with
  | EmptyString => EmptyString
  | String c r =>
      match match stripPrefix "PWD=" s with
            | Some t => value t
            | None => None
            end with
      | Some rest => replacement ++ rest
      | None => String c (replaceFirstPwd value replacement r)
      end
  end.

(** [s.replace(/PWD=.*?;/, "PWD=*****;")] *)
Definition maskPwdLazy (s : string) : string :=
  replaceFirstPwd lazyUntilSemicolon "PWD=*****;" s.

(** [s.replace(/PWD=[^;]+/, "PWD=*****")] *)
Definition maskPwdGreedy (s : string) : string :=
  replaceFirstPwd greedyNonSemicolons "PWD=*****" s.

(** The line [init] prints on the msnodesqlv8 path of the TypeScript
    adapters. *)
Definition connectionStringTemplateLine (connectionString : string) : string :=
  "[DEBUG] Connection string template: " ++ maskPwdLazy connectionString.

(** The line [connectWithMsnodesqlv8] prints in the CommonJS adapter. *)
Definition directConnectionStringLine (directConnectionString : string) : string :=
  "[DEBUG] Direct connection string (sanitized): " ++ maskPwdGreedy directConnectionString.

End Logging.

(** ** getMetadata *)

Module Metadata.

(** The object [getMetadata] returns; [connectionMethod] is a property of
    the CommonJS adapter only. *)
Record t := {
  name : string;
  type : string;
  server : string;
  database : string;
  connectionMethod : option string
}.

Definition ofNativeOnly (this : NativeOnly.SqlServerAdapter) : t :=
  {| name := "SQL Server";
     type := "sqlserver";
     server := NativeOnly.server this;
     database := NativeOnly.database this;
     connectionMethod := None |}.

Definition ofDual (this : Dual.SqlServerAdapter) : t :=
  {| name := "SQL Server";
     type := "sqlserver";
     server := Dual.server this;
     database := Dual.database this;
     connectionMethod := None |}.

Definition ofCjs (this : Cjs.SqlServerAdapter) : t :=
  {| name := "SQL Server";
     type := "sqlserver";
     server := Cjs.server this;
     database := Cjs.database this;
     connectionMethod := Some (Cjs.connectionMethod this) |}.

End Metadata.

(** ** Predicates on texts used to state properties *)

Module Text.

(** Every code unit of [s] satisfies [f]. *)
Fixpoint allChars (f : ascii -> bool) (s : string) : bool :=
  match s with
  | EmptyString => true
  | String c r => f c && allChars f r
  end.

Definition isDigit (c : ascii) : bool :=
  (48 <=? nat_of_ascii c)%nat && (nat_of_ascii c <=? 57)%nat.

(** [s] has no code unit [c]. *)
Definition noChar (c : ascii) (s : string) : bool :=
  allChars (fun x => negb (Ascii.eqb x c)) s.

(** A password the lazy mask covers whole: no semicolon and no line
    terminator. *)
Definition plainValue (s : string) : bool :=
  allChars (fun x => negb (Ascii.eqb x ";") && negb (Logging.isLineTerminator x)) s.

End Text.

(** ** More sample inputs *)

Module MoreSamples.

(** [{ server: "HOST\\INST", database: "master", user: "sa", password: "x" }] *)
Definition instanceWithLogin : ConnectionInfo.t :=
  {| ConnectionInfo.server := "HOST\INST";
     ConnectionInfo.database := "master";
     ConnectionInfo.user := Some "sa";
     ConnectionInfo.password := Some "x";
     ConnectionInfo.port := None;
     ConnectionInfo.trustServerCertificate := None;
     ConnectionInfo.driver := None;
     ConnectionInfo.driverVersion := None;
     ConnectionInfo.options := None |}.

(** The same with options
    [{ Encrypt: "yes", trustServerCertificate: false }] and the port 1500. *)
Definition instanceWithOptions : ConnectionInfo.t :=
  {| ConnectionInfo.server := "HOST\INST";
     ConnectionInfo.database := "master";
     ConnectionInfo.user := Some "sa";
     ConnectionInfo.password := Some "x";
     ConnectionInfo.port := Some 1500%Z;
     ConnectionInfo.trustServerCertificate := Some true;
     ConnectionInfo.driver := None;
     ConnectionInfo.driverVersion := Some "18";
     ConnectionInfo.options :=
       Some [("Encrypt", JString "yes"); ("trustServerCertificate", JBool false)] |}.


(** A password with a semicolon in it. *)
Definition semicolonPassword : ConnectionInfo.t :=
  {| ConnectionInfo.server := "HOST";
     ConnectionInfo.database := "master";
     ConnectionInfo.user := Some "sa";
     ConnectionInfo.password := Some "ab;cd";
     ConnectionInfo.port := None;
     ConnectionInfo.trustServerCertificate := None;
     ConnectionInfo.driver := None;
     ConnectionInfo.driverVersion := None;
     ConnectionInfo.options := None |}.

(** A user without a password. *)
Definition userWithoutPassword : ConnectionInfo.t :=
  {| ConnectionInfo.server := "HOST";
     ConnectionInfo.database := "master";
     ConnectionInfo.user := Some "sa";
     ConnectionInfo.password := None;
     ConnectionInfo.port := None;
     ConnectionInfo.trustServerCertificate := None;
     ConnectionInfo.driver := None;
     ConnectionInfo.driverVersion := None;
     ConnectionInfo.options := None |}.

End MoreSamples.

(** ** Connection parameters that differ in one field

    Used to state how the connection string depends on a field. *)

Module Variation.

Definition withPassword (ci : ConnectionInfo.t) (pw : string) : ConnectionInfo.t :=
  {| ConnectionInfo.server := ConnectionInfo.server ci;
     ConnectionInfo.database := ConnectionInfo.database ci;
     ConnectionInfo.user := ConnectionInfo.user ci;
     ConnectionInfo.password := Some pw;
     ConnectionInfo.port := ConnectionInfo.port ci;
     ConnectionInfo.trustServerCertificate := ConnectionInfo.trustServerCertificate ci;
     ConnectionInfo.driver := ConnectionInfo.driver ci;
     ConnectionInfo.driverVersion := ConnectionInfo.driverVersion ci;
     ConnectionInfo.options := ConnectionInfo.options ci |}.


Definition withoutCredentials (ci : ConnectionInfo.t) : ConnectionInfo.t :=
  {| ConnectionInfo.server := ConnectionInfo.server ci;
     ConnectionInfo.database := ConnectionInfo.database ci;
     ConnectionInfo.user := None;
     ConnectionInfo.password := None;
     ConnectionInfo.port := ConnectionInfo.port ci;
     ConnectionInfo.trustServerCertificate := ConnectionInfo.trustServerCertificate ci;
     ConnectionInfo.driver := ConnectionInfo.driver ci;
     ConnectionInfo.driverVersion := ConnectionInfo.driverVersion ci;
     ConnectionInfo.options := ConnectionInfo.options ci |}.

(** The text of one custom option in the connection string. *)
Definition optionText (kv : string * jsval) : string :=
  fst kv ++ "=" ++ toString (snd kv) ++ ";".

(** The connection string for msnodesqlv8 up to the password, when a user
    and a password are given. *)
Definition beforePassword (driverVersion : string) (ci : ConnectionInfo.t) : string :=
  "Driver={ODBC Driver " ++ driverVersion ++ " for SQL Server};Server="
  ++ ConnectionInfo.server ci ++ ";Database=" ++ ConnectionInfo.database ci
  ++ ";UID=" ++ NativePath.interp (ConnectionInfo.user ci) ++ ";".

(** What [prepareConnectionString] appends after the credentials. *)
Definition afterCredentials (ci : ConnectionInfo.t) : string :=
  (if NativePath.truthyBool (ConnectionInfo.trustServerCertificate ci)
   then "TrustServerCertificate=Yes;" else "")
  ++ (if NativePath.truthyPort (ConnectionInfo.port ci)
      then "Port=" ++ NativePath.interpPort (ConnectionInfo.port ci) ++ ";" else "")
  ++ String.concat "" (map optionText
                         (match ConnectionInfo.options ci with
                          | Some o => entries o
                          | None => []
                          end)).

End Variation.

(** * Properties *)

(** ** Examples of the runtime functions *)

Example trim_ex : trim (String (ascii_of_nat 10) "  insert into t  ") = "insert into t".
Proof. reflexivity. Qed.

Example split_ex : split "HOST\INST\x" "\" = ["HOST"; "INST"; "x"].
Proof. reflexivity. Qed.

Example replace_ex :
  replaceAll "?" (fun _ i => "@param" ++ string_of_nat i) "SELECT ?, ? AS V"
  = "SELECT @param7, @param10 AS V".
Proof. reflexivity. Qed.

(** ** Facts about strings and lists *)

Lemma append_assoc (a b c : string) : (a ++ b) ++ c = a ++ (b ++ c).
Proof.
  induction a as [|x a IH]; simpl; [reflexivity|].
  now rewrite IH.
Qed.

Lemma append_empty_r (a : string) : a ++ "" = a.
Proof.
  induction a as [|x a IH]; simpl; [reflexivity|].
  now rewrite IH.
Qed.

Lemma length_append (a b : string) : length (a ++ b) = length a + length b.
Proof.
  induction a as [|x a IH]; simpl; [reflexivity|].
  now rewrite IH.
Qed.

Lemma prefix_append (a b : string) : prefix a (a ++ b) = true.
Proof.
  induction a as [|x a IH]; simpl.
  - now destruct b.
  - destruct (ascii_dec x x) as [_|n]; [exact IH | now elim n].
Qed.

Lemma toUpperCase_append (a b : string) :
  toUpperCase (a ++ b) = toUpperCase a ++ toUpperCase b.
Proof.
  induction a as [|x a IH]; simpl; [reflexivity|].
  now rewrite IH.
Qed.

Lemma nth_error_last {A} (l : list A) (x : A) :
  nth_error (l ++ [x]) (List.length (l ++ [x]) - 1) = Some x.
Proof.
  rewrite length_app; simpl.
  replace (List.length l + 1 - 1) with (List.length l) by lia.
  rewrite nth_error_app2 by lia.
  now rewrite Nat.sub_diag.
Qed.

(** [split] never returns an empty array, and the first part is a prefix
    of the string. *)
Lemma split_first (s : string) (sep : ascii) :
  exists rest, split s sep = PoolPath.first (split s sep) :: rest.
Proof.
  induction s as [|c s [rest IH]]; simpl.
  - now exists [].
  - destruct (Ascii.eqb c sep).
    + now eexists.
    + rewrite IH. simpl. now eexists.
Qed.

Lemma first_split_prefix (s : string) (sep : ascii) :
  exists tail, s = PoolPath.first (split s sep) ++ tail.
Proof.
  induction s as [|c s [tail IH]]; simpl.
  - now exists "".
  - destruct (Ascii.eqb c sep).
    + now exists (String c s).
    + destruct (split_first s sep) as [rest E].
      rewrite E in *. simpl in *.
      exists tail. now rewrite <- IH.
Qed.

(** The test of [getAffectedRows] is stronger than the [startsWith] test
    that [run] applies. *)
Lemma first_word_insert_isInsert (query : string) :
  toUpperCase (PoolPath.first (split (trim query) " ")) = "INSERT" ->
  NativePath.isInsert query = true.
Proof.
  intros H. unfold NativePath.isInsert, startsWith.
  destruct (first_split_prefix (trim query) " ") as [tail E].
  rewrite E, toUpperCase_append, H.
  apply prefix_append.
Qed.

(** ** The rewriting of placeholders *)

Lemma replaceAllFrom_append c f offset (a b : string) :
  replaceAllFrom c f offset (a ++ b)
  = replaceAllFrom c f offset a ++ replaceAllFrom c f (offset + length a) b.
Proof.
  revert offset; induction a as [|x a IH]; intros offset; simpl.
  - now rewrite Nat.add_0_r.
  - rewrite IH. replace (S offset + length a) with (offset + S (length a)) by lia.
    destruct (Ascii.eqb x c); [now rewrite append_assoc | reflexivity].
Qed.

(** The name written for a placeholder is made from the number of code
    units before it in the query. *)
Lemma namedQuery_placeholder (before after : string) :
  PoolPath.namedQuery (before ++ "?" ++ after)
  = replaceAllFrom "?" (fun _ i => "@param" ++ string_of_nat i) 0 before
    ++ ("@param" ++ string_of_nat (length before))
    ++ replaceAllFrom "?" (fun _ i => "@param" ++ string_of_nat i) (S (length before)) after.
Proof.
  unfold PoolPath.namedQuery, replaceAll.
  rewrite replaceAllFrom_append. simpl.
  reflexivity.
Qed.

Lemma mapiFrom_nth_error {A B} (f : nat -> A -> B) (l : list A) (start i : nat) :
  nth_error (PoolPath.mapiFrom f start l) i = option_map (f (start + i)) (nth_error l i).
Proof.
  revert start i; induction l as [|x l IH]; intros start i; simpl.
  - now destruct i.
  - destruct i as [|i]; simpl.
    + now rewrite Nat.add_0_r.
    + rewrite IH. now replace (S start + i) with (start + S i) by lia.
Qed.

(** The i-th value is bound under the name made from its index. *)
Lemma bindParams_nth_error (params : list jsval) (i : nat) :
  nth_error (PoolPath.bindParams params) i
  = option_map (fun v => ("param" ++ string_of_nat i, v)) (nth_error params i).
Proof.
  unfold PoolPath.bindParams. now rewrite mapiFrom_nth_error.
Qed.

(** ** Placeholders on the pooled path (C1) *)

(** C1 (the code departs from the claim).  For the query [SELECT ? AS V]
    with the one parameter 42, the pooled path of the dual-driver adapter
    ([all] and [run]) and of the CommonJS adapter binds the value under the
    name [param0] but writes [@param7] in the query it sends: the rewriter
    names a placeholder after its offset in the text, not after its rank
    among the placeholders.  The claim asks for [@param0]. *)
Theorem C1_pooled_names_follow_offsets :
  forall (d : Drivers) (p : poolHandle) (tr : list event),
    (forall this : Dual.SqlServerAdapter,
        fst (Dual.allWithMssql d (Dual.setPool this (Some p)) "SELECT ? AS V" [JNumber 42] tr)
        = (tr ++ [PoolQuery p [("param0", JNumber 42)] [] "SELECT @param7 AS V"])%list
        /\ fst (Dual.runWithMssql d (Dual.setPool this (Some p)) "SELECT ? AS V" [JNumber 42] tr)
           = (tr ++ [PoolQuery p [("param0", JNumber 42)] [] "SELECT @param7 AS V"])%list)
    /\ (forall this : Cjs.SqlServerAdapter,
           fst (Cjs.all d (Cjs.setUsingDirectConnection (Cjs.setPool this (Some p)) false)
                  "SELECT ? AS V" [JNumber 42] tr)
           = (tr ++ [PoolQuery p [("param0", JNumber 42)] [] "SELECT @param7 AS V"])%list).
Proof.
  intros d p tr; split; [intros this; split | intros this]; reflexivity.
Qed.

(** ** The direct path forwards the query and the parameters (C4) *)

(** C4, counterexample.  The CommonJS adapter, fallen back to direct
    calls, sends [SELECT ? AS V] to msnodesqlv8 with no parameter array:
    the parameter 42 is dropped. *)
Lemma C4_cjs_direct_call_drops_parameters :
  let d := Samples.poolDown in
  let '(tr1, (this1, _)) := Cjs.init d (Cjs.constructor Samples.hostOnly) [] in
  Cjs.usingDirectConnection this1 = true
  /\ fst (Cjs.all d this1 "SELECT ? AS V" [JNumber 42] tr1)
     = (tr1 ++ [NativeQuery (Cjs.directConnectionString this1) "SELECT ? AS V" None])%list.
Proof.
  vm_compute. split; reflexivity.
Qed.

(** C4, as amended.  In the native-only and in the dual-driver adapter the
    prepare step returns the query and the parameter array as they are
    (the empty array for no parameters), and [all] on the direct path
    makes exactly one call to msnodesqlv8, with the connection string of
    the adapter, that query and those parameters.  In the CommonJS adapter
    the direct path makes one call with the query as it is and without a
    parameter array. *)
Theorem C4_direct_path_passes_through :
  forall (d : Drivers) (query : string) (params : list jsval) (tr : list event),
    NativeOnly.prepareQuery query params = (query, params)
    /\ Dual.prepareNativeQuery query params = (query, params)
    /\ (forall this : NativeOnly.SqlServerAdapter,
           fst (NativeOnly.all d this query params tr)
           = (tr ++ [NativeQuery (NativeOnly.connectionString this) query (Some params)])%list)
    /\ (forall this : Dual.SqlServerAdapter,
           fst (Dual.allWithNativeDriver d this query params tr)
           = (tr ++ [NativeQuery (Dual.connectionString this) query (Some params)])%list)
    /\ (forall this : Cjs.SqlServerAdapter,
           fst (Cjs.allDirect d this query params tr)
           = (tr ++ [NativeQuery (Cjs.directConnectionString this) query None])%list).
Proof.
  intros d query params tr.
  assert (P : NativePath.prepareQuery query params = (query, params))
    by (now destruct params).
  repeat split; try exact P.
  - intros this. unfold NativeOnly.all, NativePath.all. now rewrite P.
  - intros this. unfold Dual.allWithNativeDriver, NativePath.all. now rewrite P.
Qed.

(** ** The default of trustServerCertificate (C8) *)

(** Without [trustServerCertificate] the connection string for
    msnodesqlv8 is the one built for [trustServerCertificate: false]. *)
Lemma prepareConnectionString_trust_omitted (driverVersion : string) (ci : ConnectionInfo.t) :
  ConnectionInfo.trustServerCertificate ci = None ->
  NativePath.prepareConnectionString driverVersion ci
  = NativePath.prepareConnectionString driverVersion
      {| ConnectionInfo.server := ConnectionInfo.server ci;
         ConnectionInfo.database := ConnectionInfo.database ci;
         ConnectionInfo.user := ConnectionInfo.user ci;
         ConnectionInfo.password := ConnectionInfo.password ci;
         ConnectionInfo.port := ConnectionInfo.port ci;
         ConnectionInfo.trustServerCertificate := Some false;
         ConnectionInfo.driver := ConnectionInfo.driver ci;
         ConnectionInfo.driverVersion := ConnectionInfo.driverVersion ci;
         ConnectionInfo.options := ConnectionInfo.options ci |}.
Proof.
  intros H. unfold NativePath.prepareConnectionString. simpl. now rewrite H.
Qed.

(** C8 (the code departs from the claim).  For
    [{ server: "HOST", database: "master" }], where [trustServerCertificate]
    is omitted, the pool configuration of the dual-driver adapter carries
    [trustServerCertificate: true], but the connection string built for
    msnodesqlv8, by the native-only adapter and by the dual-driver adapter
    alike (the driver detected, or asked for with [driver: "msnodesqlv8"]),
    has no [TrustServerCertificate] option at all. *)
Theorem C8_native_string_lacks_trust_option :
  ConnectionInfo.trustServerCertificate Samples.hostOnly = None
  /\ option_map (fun c => get (PoolConfig.options c) "trustServerCertificate")
       (Dual.config (Dual.constructor false Samples.hostOnly))
     = Some (Some (JBool true))
  /\ NativeOnly.connectionString (NativeOnly.constructor Samples.hostOnly)
     = "Driver={ODBC Driver 17 for SQL Server};Server=HOST;Database=master;Trusted_Connection=Yes;"
  /\ Dual.connectionString (Dual.constructor true Samples.hostOnly)
     = "Driver={ODBC Driver 17 for SQL Server};Server=HOST;Database=master;Trusted_Connection=Yes;"
  /\ Dual.connectionString (Dual.constructor false Samples.hostOnlyNative)
     = "Driver={ODBC Driver 17 for SQL Server};Server=HOST;Database=master;Trusted_Connection=Yes;"
  /\ includes (NativeOnly.connectionString (NativeOnly.constructor Samples.hostOnly))
       "TrustServerCertificate" = false.
Proof.
  repeat split.
Qed.

(** ** The schema-introspection helpers (C9) *)

(** C9.  [getListTablesQuery] and [getDescribeTableQuery] read nothing of
    the adapter they are called on: two adapters give the same text for
    the same argument.  The text of [getDescribeTableQuery] is a fixed
    prefix, then the table name exactly as it was given, then a fixed
    suffix; the prefix ends with the quote that opens the SQL string and
    the suffix starts with the quote that closes it, and a quote inside
    the table name is copied unchanged. *)
Theorem C9_introspection_queries_are_pure :
  (forall this1 this2 : NativeOnly.SqlServerAdapter,
      NativeOnly.getListTablesQuery this1 = NativeOnly.getListTablesQuery this2)
  /\ (forall this1 this2 : Dual.SqlServerAdapter,
         Dual.getListTablesQuery this1 = Dual.getListTablesQuery this2)
  /\ (forall (this1 this2 : NativeOnly.SqlServerAdapter) (tableName : string),
         NativeOnly.getDescribeTableQuery this1 tableName
         = NativeOnly.getDescribeTableQuery this2 tableName)
  /\ (forall (this1 this2 : Dual.SqlServerAdapter) (tableName : string),
         Dual.getDescribeTableQuery this1 tableName
         = Dual.getDescribeTableQuery this2 tableName)
  /\ (forall (n : NativeOnly.SqlServerAdapter) (m : Dual.SqlServerAdapter) (tableName : string),
         NativeOnly.getDescribeTableQuery n tableName
         = Introspection.describeTablePrefix ++ tableName ++ Introspection.describeTableSuffix
         /\ Dual.getDescribeTableQuery m tableName
            = NativeOnly.getDescribeTableQuery n tableName
         /\ length (NativeOnly.getDescribeTableQuery n tableName)
            = length Introspection.describeTablePrefix + length tableName
              + length Introspection.describeTableSuffix)
  /\ (exists a b, Introspection.describeTablePrefix = a ++ "c.TABLE_NAME = '"
                  /\ Introspection.describeTableSuffix = "'" ++ b)
  /\ (forall n : NativeOnly.SqlServerAdapter,
         includes (NativeOnly.getDescribeTableQuery n "x' OR '1'='1")
           "c.TABLE_NAME = 'x' OR '1'='1'" = true).
Proof.
  repeat match goal with |- _ /\ _ => split end; try reflexivity.
  - intros n m tableName. repeat split.
    unfold NativeOnly.getDescribeTableQuery.
    rewrite !length_append. lia.
  - exists (substring 0 (length Introspection.describeTablePrefix - 16)
              Introspection.describeTablePrefix),
           (substring 1 (length Introspection.describeTableSuffix - 1)
              Introspection.describeTableSuffix).
    split; reflexivity.
Qed.

(** ** The server name given to the pool (C10) *)

Lemma includes_false_hasInstance (server : string) :
  includes server "\" = false -> PoolPath.hasInstance server = false.
Proof. exact (fun H => H). Qed.

(** C10.  In the dual-driver adapter, when the pool is selected and the
    server string has no backslash, the [server] field of the pool
    configuration is the server string followed by a backslash and the
    word [undefined]. *)
Theorem C10_pool_server_without_instance :
  forall (msnodesqlv8 : bool) (connectionInfo : ConnectionInfo.t),
    Dual.useNativeDriver (Dual.constructor msnodesqlv8 connectionInfo) = false ->
    includes (ConnectionInfo.server connectionInfo) "\" = false ->
    option_map PoolConfig.server (Dual.config (Dual.constructor msnodesqlv8 connectionInfo))
    = Some (ConnectionInfo.server connectionInfo ++ "\" ++ "undefined").
Proof.
  intros msn ci Hpool Hno.
  unfold Dual.constructor in *. simpl in *.
  rewrite Hpool. simpl.
  unfold PoolPath.serverNameOf, PoolPath.instanceNameOf.
  now rewrite (includes_false_hasInstance _ Hno).
Qed.

(** C10 at [{ server: "HOST", database: "master" }] with the pool
    selected: the pool is given the server [HOST\undefined]. *)
Lemma C10_pool_server_without_instance_witness :
  Dual.useNativeDriver (Dual.constructor false Samples.hostOnly) = false
  /\ includes (ConnectionInfo.server Samples.hostOnly) "\" = false
  /\ option_map PoolConfig.server (Dual.config (Dual.constructor false Samples.hostOnly))
     = Some "HOST\undefined".
Proof.
  split; [reflexivity | split; [reflexivity |]].
  apply (C10_pool_server_without_instance false Samples.hostOnly); reflexivity.
Defined.

(** ** The chained fallback of the CommonJS init (C7) *)

(** C7.  [init] of the CommonJS adapter first asks mssql for a pool.  If
    that succeeds it is the only call, the pool is stored and [init]
    resolves.  Only if it fails does [init] probe msnodesqlv8 with the
    direct connection string; it then resolves if the probe succeeds and
    rejects, with the message of the probe's error after
    [Failed to connect to SQL Server: ], if the probe fails too.  So [init]
    resolves exactly when one of the two attempts succeeds and rejects
    exactly when both fail. *)
Theorem C7_init_chained_fallback :
  forall (d : Drivers) (this : Cjs.SqlServerAdapter) (tr : list event),
    let connect := SqlConnect (Some (Cjs.config this)) in
    let probe :=
      NativeQuery (Cjs.directConnectionString this) "SELECT @@VERSION AS Version" None in
    let pooled := sql_connect d tr (Some (Cjs.config this)) in
    let direct :=
      native_query d (tr ++ [connect])%list (Cjs.directConnectionString this)
        "SELECT @@VERSION AS Version" None in
    let tr' := fst (Cjs.init d this tr) in
    let this' := fst (snd (Cjs.init d this tr)) in
    let outcome := snd (snd (Cjs.init d this tr)) in
    match pooled with
    | inr p =>
        tr' = (tr ++ [connect])%list
        /\ this' = Cjs.setPool this (Some p)
        /\ outcome = Resolved tt
    | inl _ =>
        tr' = (tr ++ [connect; probe])%list
        /\ match direct with
           | inr _ =>
               this' = Cjs.setUsingDirectConnection this true /\ outcome = Resolved tt
           | inl message =>
               this' = this
               /\ outcome = Rejected ("Failed to connect to SQL Server: " ++ message)
           end
    end
    /\ (outcome = Resolved tt <-> (exists p, pooled = inr p) \/ (exists r, direct = inr r))
    /\ ((exists message, outcome = Rejected message)
        <-> (exists e1 e2, pooled = inl e1 /\ direct = inl e2
                           /\ outcome = Rejected ("Failed to connect to SQL Server: " ++ e2))).
Proof.
  intros d this tr connect probe pooled direct tr' this' outcome.
  subst tr' this' outcome.
  unfold Cjs.init, Cjs.connectWithMssql, Cjs.connectWithMsnodesqlv8,
    bind, ret, sqlConnect, nativeQuery.
  fold connect. fold pooled.
  destruct pooled as [e1|p]; simpl.
  - fold connect probe. fold direct.
    rewrite <- app_assoc; simpl.
    destruct direct as [e2|r]; simpl.
    + repeat split; try discriminate.
      * intros [[p Hp]|[r Hr]]; discriminate.
      * intros _. now exists e1, e2.
      * intros _. now eexists.
    + repeat split; try discriminate.
      * intros _. right. now eexists.
      * intros [m Hm]; discriminate.
      * intros (x & y & _ & Hy & _); discriminate.
  - repeat split; try discriminate.
    + intros _. left. now eexists.
    + intros [m Hm]; discriminate.
    + intros (x & y & Hx & _); discriminate.
Qed.

(** ** Queries after close (C5) *)

(** C5, counterexample.  A CommonJS adapter that fell back to direct
    calls answers [all] before [close]; after [close] the same call is
    rejected with [Database not initialized], and no call reaches
    msnodesqlv8. *)
Lemma C5_cjs_direct_rejects_after_close :
  let d := Samples.poolDown in
  let '(tr1, (this1, _)) := Cjs.init d (Cjs.constructor Samples.hostOnly) [] in
  let '(tr2, (this2, closed)) := Cjs.close d this1 tr1 in
  Cjs.usingDirectConnection this1 = true
  /\ snd (Cjs.all d this1 "SELECT 1" [] tr1) = Resolved (RArray [])
  /\ closed = Resolved tt
  /\ Cjs.all d this2 "SELECT 1" [] tr2 = (tr2, Rejected "Database not initialized").
Proof.
  vm_compute. repeat split.
Qed.

(** C5, as amended.  Dual-driver adapter on the pool: once [close] has
    resolved, [all], [run] and [exec] are rejected with
    [Database not initialized] and call no library.  Dual-driver adapter on
    msnodesqlv8, and native-only adapter: [close] resolves, calls no
    library and leaves the adapter as it was, so every method behaves after
    it as before.  CommonJS adapter: once [close] has resolved, [all] is
    rejected with [Database not initialized] whichever backend was in
    use. *)
Theorem C5_queries_after_close :
  forall (d : Drivers) (query : string) (params : list jsval) (tr tr2 : list event),
    (forall this : Dual.SqlServerAdapter,
        Dual.useNativeDriver this = false ->
        snd (snd (Dual.close d this tr)) = Resolved tt ->
        let this' := fst (snd (Dual.close d this tr)) in
        Dual.all d this' query params tr2 = (tr2, Rejected "Database not initialized")
        /\ Dual.run d this' query params tr2 = (tr2, Rejected "Database not initialized")
        /\ Dual.exec d this' query tr2 = (tr2, Rejected "Database not initialized"))
    /\ (forall this : Dual.SqlServerAdapter,
           Dual.useNativeDriver this = true ->
           Dual.close d this tr = (tr, (this, Resolved tt)))
    /\ NativeOnly.close tr = (tr, Resolved tt)
    /\ (forall this : Cjs.SqlServerAdapter,
           snd (snd (Cjs.close d this tr)) = Resolved tt ->
           let this' := fst (snd (Cjs.close d this tr)) in
           Cjs.all d this' query params tr2 = (tr2, Rejected "Database not initialized")).
Proof.
  intros d query params tr tr2.
  repeat match goal with |- _ /\ _ => split end.
  - intros this Hpool Hclosed this'. subst this'.
    revert Hclosed.
    unfold Dual.close, Dual.all, Dual.run, Dual.exec,
      Dual.allWithMssql, Dual.runWithMssql, Dual.execWithMssql.
    rewrite Hpool.
    destruct (Dual.pool this) as [p|] eqn:Ep; unfold bind, ret, poolClose; simpl.
    + destruct (pool_close d tr p); simpl; [discriminate|].
      intros _. rewrite Hpool. repeat split.
    + intros _. rewrite Hpool, Ep. repeat split.
  - intros this Hnative. unfold Dual.close. now rewrite Hnative.
  - reflexivity.
  - intros this Hclosed this'. subst this'.
    revert Hclosed. unfold Cjs.close, Cjs.all.
    destruct (Cjs.pool this) as [p|] eqn:Ep; unfold bind, ret, poolClose; simpl.
    + destruct (pool_close d tr p); simpl; [discriminate|].
      reflexivity.
    + intros _. now rewrite Ep.
Qed.

(** C5 on adapters that opened a pool and closed it, and on a dual-driver
    adapter that uses msnodesqlv8. *)
Lemma C5_queries_after_close_witness :
  let d := Samples.poolUp in
  let dual := fst (snd (Dual.init d (Dual.constructor false Samples.hostOnly) [])) in
  let cjs := fst (snd (Cjs.init d (Cjs.constructor Samples.hostOnly) [])) in
  (Dual.pool dual = Some 1
   /\ Dual.all d (fst (snd (Dual.close d dual []))) "SELECT 1" [] []
      = ([], Rejected "Database not initialized"))
  /\ Dual.close d (Dual.constructor true Samples.hostOnly) []
     = ([], (Dual.constructor true Samples.hostOnly, Resolved tt))
  /\ (Cjs.pool cjs = Some 1
      /\ Cjs.all d (fst (snd (Cjs.close d cjs []))) "SELECT 1" [] []
         = ([], Rejected "Database not initialized")).
Proof.
  destruct (C5_queries_after_close Samples.poolUp "SELECT 1" [] [] [])
    as (Hdual & Hnative & _ & Hcjs).
  split; [split; [reflexivity|] | split].
  - apply (Hdual (fst (snd (Dual.init Samples.poolUp
                               (Dual.constructor false Samples.hostOnly) []))));
      reflexivity.
  - apply Hnative. reflexivity.
  - split; [reflexivity|].
    apply (Hcjs (fst (snd (Cjs.init Samples.poolUp (Cjs.constructor Samples.hostOnly) []))));
      reflexivity.
Defined.

(** ** The choice of the backend (C6) *)

(** C6, counterexample.  The constructor of the CommonJS adapter selects
    no backend.  [init] selects it: the same adapter ends on the pool when
    mssql can connect and on direct calls when it cannot; [close] then
    clears the selection. *)
Lemma C6_cjs_backend_decided_by_init :
  let this0 := Cjs.constructor Samples.hostOnly in
  let up := fst (snd (Cjs.init Samples.poolUp this0 [])) in
  let down := fst (snd (Cjs.init Samples.poolDown this0 [])) in
  let closed := fst (snd (Cjs.close Samples.poolDown down [])) in
  (Cjs.pool this0 = None /\ Cjs.usingDirectConnection this0 = false)
  /\ (Cjs.pool up = Some 1 /\ Cjs.usingDirectConnection up = false
      /\ Cjs.connectionMethod up = "mssql pool")
  /\ (Cjs.pool down = None /\ Cjs.usingDirectConnection down = true
      /\ Cjs.connectionMethod down = "direct msnodesqlv8")
  /\ Cjs.usingDirectConnection closed = false.
Proof.
  vm_compute. repeat split.
Qed.

(** A CommonJS adapter that fell back to direct calls and is initialised
    again while mssql can connect: it then holds a pool and the direct
    flag together, and [all] still goes to msnodesqlv8. *)
Example cjs_init_again_after_fallback :
  let fellBack :=
    fst (snd (Cjs.init Samples.poolDown (Cjs.constructor Samples.hostOnly) [])) in
  let again := fst (snd (Cjs.init Samples.poolUp fellBack [])) in
  Cjs.pool again = Some 1
  /\ Cjs.usingDirectConnection again = true
  /\ Cjs.connectionMethod again = "direct msnodesqlv8"
  /\ fst (Cjs.all Samples.poolUp again "SELECT 1" [] [])
     = [NativeQuery (Cjs.directConnectionString again) "SELECT 1" None].
Proof.
  vm_compute. repeat split.
Qed.

(** One method call of the dual-driver adapter keeps [useNativeDriver],
    only calls the library that flag stands for, and opens no pool on an
    adapter that uses msnodesqlv8. *)
Lemma step_keeps_backend (d : Drivers) (o : Lifetime.op) (tr : list event)
    (this : Dual.SqlServerAdapter) :
  Dual.useNativeDriver (snd (Lifetime.step d (tr, this) o)) = Dual.useNativeDriver this
  /\ (exists new,
         fst (Lifetime.step d (tr, this) o) = (tr ++ new)%list
         /\ Forall (fun e => Lifetime.isNativeEvent e = Dual.useNativeDriver this) new)
  /\ (Dual.useNativeDriver this = true ->
      Dual.pool (snd (Lifetime.step d (tr, this) o)) = Dual.pool this).
Proof.
  assert (Nil : forall b, exists new : list event,
               tr = (tr ++ new)%list /\ Forall (fun e => Lifetime.isNativeEvent e = b) new)
    by (intros b; exists []; split; [now rewrite app_nil_r | constructor]).
  assert (One : forall e b, Lifetime.isNativeEvent e = b ->
               exists new : list event,
                 (tr ++ [e])%list = (tr ++ new)%list
                 /\ Forall (fun e => Lifetime.isNativeEvent e = b) new)
    by (intros e b He; exists [e]; split; [reflexivity | now repeat constructor]).
  destruct o as [|query params|query params|query|]; simpl.
  - unfold Dual.init.
    destruct (Dual.useNativeDriver this) eqn:E;
      unfold NativePath.testConnection, bind, ret, nativeQuery, sqlConnect; simpl.
    + destruct (native_query d tr _ _ _); simpl;
        (split; [exact E | split; [now apply One | reflexivity]]).
    + destruct (sql_connect d tr _); simpl;
        (split; [exact E | split; [now apply One | discriminate]]).
  - split; [reflexivity | split; [| reflexivity]].
    unfold Dual.all, Dual.allWithNativeDriver, Dual.allWithMssql, NativePath.all.
    destruct (Dual.useNativeDriver this).
    + destruct (NativePath.prepareQuery query params).
      unfold bind, ret, nativeQuery; simpl. now apply One.
    + destruct (Dual.pool this); unfold bind, ret, poolQuery; simpl;
        [now apply One | apply Nil].
  - split; [reflexivity | split; [| reflexivity]].
    unfold Dual.run, Dual.runWithNativeDriver, Dual.runWithMssql, NativePath.run.
    destruct (Dual.useNativeDriver this).
    + destruct (NativePath.isInsert query);
        destruct (NativePath.prepareQuery _ params);
        unfold bind, ret, nativeQuery; simpl; now apply One.
    + destruct (Dual.pool this); [| apply Nil].
      destruct (NativePath.isInsert query);
        unfold bind, ret, poolQuery; simpl; now apply One.
  - split; [reflexivity | split; [| reflexivity]].
    unfold Dual.exec, Dual.execWithNativeDriver, Dual.execWithMssql, NativePath.exec.
    destruct (Dual.useNativeDriver this).
    + unfold bind, ret, nativeQuery; simpl. now apply One.
    + destruct (Dual.pool this); unfold bind, ret, poolBatch; simpl;
        [now apply One | apply Nil].
  - unfold Dual.close.
    destruct (Dual.useNativeDriver this) eqn:E; simpl.
    + split; [exact E | split; [apply Nil | reflexivity]].
    + destruct (Dual.pool this); unfold bind, ret, poolClose; simpl.
      * destruct (pool_close d tr _); simpl;
          (split; [exact E | split; [now apply One | discriminate]]).
      * split; [exact E | split; [apply Nil | discriminate]].
Qed.

Lemma steps_keep_backend (d : Drivers) (ops : list Lifetime.op) :
  forall (tr : list event) (this : Dual.SqlServerAdapter),
    Dual.useNativeDriver (snd (Lifetime.steps d ops (tr, this))) = Dual.useNativeDriver this
    /\ (exists new,
           fst (Lifetime.steps d ops (tr, this)) = (tr ++ new)%list
           /\ Forall (fun e => Lifetime.isNativeEvent e = Dual.useNativeDriver this) new)
    /\ (Dual.useNativeDriver this = true ->
        Dual.pool (snd (Lifetime.steps d ops (tr, this))) = Dual.pool this).
Proof.
  induction ops as [|o ops IH]; intros tr this.
  - simpl. split; [reflexivity | split; [| reflexivity]].
    exists []. split; [now rewrite app_nil_r | constructor].
  - change (Lifetime.steps d (o :: ops) (tr, this))
      with (Lifetime.steps d ops (Lifetime.step d (tr, this) o)).
    destruct (step_keeps_backend d o tr this) as (Hflag & (new1 & Htr1 & Hnew1) & Hpool1).
    destruct (Lifetime.step d (tr, this) o) as [tr1 this1] eqn:Est.
    simpl in Hflag, Htr1, Hpool1.
    destruct (IH tr1 this1) as (Hflag2 & (new2 & Htr2 & Hnew2) & Hpool2).
    rewrite Hflag in *.
    split; [exact Hflag2 | split].
    + exists (new1 ++ new2)%list. split.
      * now rewrite Htr2, Htr1, app_assoc.
      * apply Forall_app. now split.
    + intros Hn. rewrite (Hpool2 Hn). exact (Hpool1 Hn).
Qed.

(** C6, as amended.  Dual-driver adapter: the constructor decides the
    backend; after any sequence of [init], [all], [run], [exec] and [close]
    the decision is the one the constructor made, every call made to a
    library went to the library of that backend, and an adapter on
    msnodesqlv8 holds no pool.  CommonJS adapter: the constructor selects
    no backend.  An [init] that resolves, on an adapter in any state,
    either stored the pool that mssql returned and left the direct flag as
    it was, or, mssql having failed, set the direct flag and left the pool
    as it was; [init] never clears the direct flag.  So on an adapter
    without the direct flag and without a pool (a new one, or one that was
    closed) [init] leaves either a pool and no direct flag (mssql
    connected) or the direct flag and no pool (mssql failed), while on an
    adapter that already fell back the direct flag stays set even when a
    later [init] opens a pool.  A [close] that resolves leaves neither
    pool nor flag. *)
Theorem C6_backend_decision :
  forall (d : Drivers) (tr : list event),
    (forall (ops : list Lifetime.op) (msnodesqlv8 : bool) (ci : ConnectionInfo.t),
        let this0 := Dual.constructor msnodesqlv8 ci in
        let final := Lifetime.steps d ops (tr, this0) in
        Dual.useNativeDriver this0 = Dual.chooseNativeDriver msnodesqlv8 ci
        /\ Dual.useNativeDriver (snd final) = Dual.useNativeDriver this0
        /\ (exists new,
               fst final = (tr ++ new)%list
               /\ Forall (fun e => Lifetime.isNativeEvent e = Dual.useNativeDriver this0) new)
        /\ (Dual.useNativeDriver this0 = true -> Dual.pool (snd final) = None))
    /\ (forall ci : ConnectionInfo.t,
           Cjs.pool (Cjs.constructor ci) = None
           /\ Cjs.usingDirectConnection (Cjs.constructor ci) = false)
    /\ (forall this : Cjs.SqlServerAdapter,
           snd (snd (Cjs.init d this tr)) = Resolved tt ->
           let this' := fst (snd (Cjs.init d this tr)) in
           (exists p, sql_connect d tr (Some (Cjs.config this)) = inr p
                      /\ Cjs.pool this' = Some p
                      /\ Cjs.usingDirectConnection this' = Cjs.usingDirectConnection this)
           \/ (exists message, sql_connect d tr (Some (Cjs.config this)) = inl message
                               /\ Cjs.pool this' = Cjs.pool this
                               /\ Cjs.usingDirectConnection this' = true))
    /\ (forall this : Cjs.SqlServerAdapter,
           Cjs.usingDirectConnection this = true ->
           Cjs.usingDirectConnection (fst (snd (Cjs.init d this tr))) = true)
    /\ (forall this : Cjs.SqlServerAdapter,
           Cjs.pool this = None ->
           Cjs.usingDirectConnection this = false ->
           snd (snd (Cjs.init d this tr)) = Resolved tt ->
           let this' := fst (snd (Cjs.init d this tr)) in
           (exists p, sql_connect d tr (Some (Cjs.config this)) = inr p
                      /\ Cjs.pool this' = Some p
                      /\ Cjs.usingDirectConnection this' = false)
           \/ (exists message, sql_connect d tr (Some (Cjs.config this)) = inl message
                               /\ Cjs.pool this' = None
                               /\ Cjs.usingDirectConnection this' = true))
    /\ (forall this : Cjs.SqlServerAdapter,
           snd (snd (Cjs.close d this tr)) = Resolved tt ->
           let this' := fst (snd (Cjs.close d this tr)) in
           Cjs.pool this' = None /\ Cjs.usingDirectConnection this' = false).
Proof.
  intros d tr.
  repeat match goal with |- _ /\ _ => split end.
  - intros ops msn ci this0 final.
    destruct (steps_keep_backend d ops tr this0) as (Hflag & Hnew & Hpool).
    split; [reflexivity | split; [exact Hflag | split; [exact Hnew |]]].
    intros Hn. unfold final. now rewrite (Hpool Hn).
  - intros ci. now split.
  - intros this Hres this'. subst this'. revert Hres.
    unfold Cjs.init, Cjs.connectWithMssql, Cjs.connectWithMsnodesqlv8,
      bind, ret, sqlConnect, nativeQuery.
    destruct (sql_connect d tr (Some (Cjs.config this))) as [e|p]; simpl.
    + destruct (native_query d _ _ _ _); simpl; [discriminate|].
      intros _. right. now exists e.
    + intros _. left. now exists p.
  - intros this Hflag.
    unfold Cjs.init, Cjs.connectWithMssql, Cjs.connectWithMsnodesqlv8,
      bind, ret, sqlConnect, nativeQuery.
    destruct (sql_connect d tr (Some (Cjs.config this))) as [e|p]; simpl;
      [| exact Hflag].
    destruct (native_query d _ _ _ _); simpl; [exact Hflag | reflexivity].
  - intros this Hpool Hflag Hres this'. subst this'. revert Hres.
    unfold Cjs.init, Cjs.connectWithMssql, Cjs.connectWithMsnodesqlv8,
      bind, ret, sqlConnect, nativeQuery.
    destruct (sql_connect d tr (Some (Cjs.config this))) as [e|p]; simpl.
    + destruct (native_query d _ _ _ _); simpl; [discriminate|].
      intros _. right. now exists e.
    + intros _. left. now exists p.
  - intros this Hres this'. subst this'. revert Hres.
    unfold Cjs.close.
    destruct (Cjs.pool this) as [p|] eqn:Ep; unfold bind, ret, poolClose; simpl.
    + destruct (pool_close d tr p); simpl; [discriminate|]. now split.
    + intros _. now split.
Qed.

(** C6 on a dual-driver adapter that uses msnodesqlv8 and goes through
    [init], [all], [close] and [run], and on a CommonJS adapter whose pool
    cannot be opened. *)
Lemma C6_backend_decision_witness :
  let d := Samples.poolDown in
  let ops := [Lifetime.Init; Lifetime.All "SELECT 1" []; Lifetime.Close;
              Lifetime.Run "UPDATE t SET a = 1" []] in
  let final := Lifetime.steps d ops ([], Dual.constructor true Samples.hostOnly) in
  (Dual.useNativeDriver (Dual.constructor true Samples.hostOnly) = true
   /\ Dual.useNativeDriver (snd final) = true
   /\ Dual.pool (snd final) = None)
  /\ (Cjs.pool (fst (snd (Cjs.init d (Cjs.constructor Samples.hostOnly) []))) = None
      /\ Cjs.usingDirectConnection
           (fst (snd (Cjs.init d (Cjs.constructor Samples.hostOnly) []))) = true)
  /\ Cjs.usingDirectConnection
       (fst (snd (Cjs.close d (fst (snd (Cjs.init d (Cjs.constructor Samples.hostOnly) [])))
                    []))) = false.
Proof.
  destruct (C6_backend_decision Samples.poolDown [])
    as (Hdual & _ & _ & _ & Hinit & Hclose).
  split; [| split].
  - destruct (Hdual [Lifetime.Init; Lifetime.All "SELECT 1" []; Lifetime.Close;
                     Lifetime.Run "UPDATE t SET a = 1" []] true Samples.hostOnly)
      as (_ & Hflag & _ & Hpool).
    split; [reflexivity | split; [exact Hflag | apply Hpool; reflexivity]].
  - destruct (Hinit (Cjs.constructor Samples.hostOnly) eq_refl eq_refl eq_refl)
      as [(p & Hp & _)|(m & _ & Hp & Hd)].
    + discriminate Hp.
    + split; [exact Hp | exact Hd].
  - apply (Hclose (fst (snd (Cjs.init Samples.poolDown (Cjs.constructor Samples.hostOnly) []))));
      reflexivity.
Defined.

(** ** What run resolves with (C2, C3) *)

Lemma Dual_run_native (d : Drivers) (this : Dual.SqlServerAdapter) query params :
  Dual.useNativeDriver this = true ->
  Dual.run d this query params = NativePath.run d (Dual.connectionString this) query params.
Proof. intros H. unfold Dual.run. now rewrite H. Qed.

Lemma Dual_run_pooled (d : Drivers) (this : Dual.SqlServerAdapter) query params :
  Dual.useNativeDriver this = false ->
  Dual.run d this query params = Dual.runWithMssql d this query params.
Proof. intros H. unfold Dual.run. now rewrite H. Qed.

(** [run] over msnodesqlv8, by the kind of statement. *)
Lemma native_run_insert (d : Drivers) cs query params tr :
  NativePath.isInsert query = true ->
  NativePath.run d cs query params tr
  = ((tr ++ [NativeQuery cs (query ++ "; SELECT SCOPE_IDENTITY() AS LastID") (Some params)])%list,
     match native_query d tr cs (query ++ "; SELECT SCOPE_IDENTITY() AS LastID") (Some params) with
     | inl message => Rejected ("SQL Server query error: " ++ message)
     | inr res =>
         Resolved
           {| changes :=
                CNumber (Num (if gt0 (CNumber (NativePath.lastIDOfResults res)) then 1 else 0));
              lastID := CNumber (NativePath.lastIDOfResults res) |}
     end).
Proof.
  intros H. unfold NativePath.run. rewrite H.
  assert (P : forall q, NativePath.prepareQuery q params = (q, params))
    by (intros q; now destruct params).
  now rewrite P.
Qed.

Lemma native_run_other (d : Drivers) cs query params tr :
  NativePath.isInsert query = false ->
  NativePath.run d cs query params tr
  = ((tr ++ [NativeQuery cs query (Some params)])%list,
     match native_query d tr cs query (Some params) with
     | inl message => Rejected ("SQL Server query error: " ++ message)
     | inr res =>
         Resolved {| changes := NativePath.changesOfResults res; lastID := CNumber (Num 0) |}
     end).
Proof.
  intros H. unfold NativePath.run. rewrite H.
  assert (P : forall q, NativePath.prepareQuery q params = (q, params))
    by (intros q; now destruct params).
  now rewrite P.
Qed.

(** The identity read from the last element of the results. *)
Lemma lastIDOfResults_identity (rows : list row) (last : row) (n : Z) :
  get last "LastID" = Some (CNumber (Num n)) ->
  (0 < n)%Z ->
  NativePath.lastIDOfResults (RArray (rows ++ [last])) = Num n.
Proof.
  intros Hget Hn. unfold NativePath.lastIDOfResults.
  rewrite nth_error_last. unfold NativePath.prop. rewrite Hget. simpl.
  destruct (n =? 0)%Z eqn:E; [apply Z.eqb_eq in E; lia | reflexivity].
Qed.

Lemma lastIDOfResults_none (res : results) :
  (forall rows last, res = RArray (rows ++ [last]) ->
                     get last "LastID" = None \/ get last "LastID" = Some CNull) ->
  NativePath.lastIDOfResults res = Num 0.
Proof.
  intros H. destruct res as [| |n|o|rows]; try reflexivity.
  induction rows as [|last rows _] using rev_ind; [reflexivity|].
  unfold NativePath.lastIDOfResults. rewrite nth_error_last.
  unfold NativePath.prop.
  destruct (H rows last eq_refl) as [E|E]; now rewrite E.
Qed.

(** C2, counterexample.  On msnodesqlv8 an UPDATE for which the driver
    answers with the number 3 resolves with [changes] 3. *)
Lemma C2_native_update_reports_driver_count :
  let this := Dual.constructor true Samples.hostOnly in
  NativePath.isInsert "UPDATE t SET a = 1" = false
  /\ Dual.useNativeDriver this = true
  /\ snd (Dual.run Samples.nativeCount this "UPDATE t SET a = 1" [] [])
     = Resolved {| changes := CNumber (Num 3); lastID := CNumber (Num 0) |}
  /\ snd (NativeOnly.run Samples.nativeCount (NativeOnly.constructor Samples.hostOnly)
            "UPDATE t SET a = 1" [] [])
     = Resolved {| changes := CNumber (Num 3); lastID := CNumber (Num 0) |}.
Proof.
  vm_compute. repeat split.
Qed.

(** C2, as amended.  For a statement that is not an INSERT, [run]
    resolves with [lastID] 0 on both backends.  On the pool [changes] is 0
    for such a statement, and over all statements it is 1 when the
    statement is an INSERT that came back with a positive identity and 0
    otherwise.  On msnodesqlv8 [changes] for an INSERT is 1 when [lastID]
    is positive and 0 otherwise; for another statement it is what the
    driver reports: the result itself when that is a number, the
    [rowsAffected] property when the result is an object that has one, and
    0 in every other case, so 0 for an array of rows. *)
Theorem C2_run_changes_and_lastID :
  forall (d : Drivers) (query : string) (params : list jsval) (tr : list event),
    (forall (this : Dual.SqlServerAdapter) (r : RunResult),
        NativePath.isInsert query = false ->
        snd (Dual.run d this query params tr) = Resolved r ->
        lastID r = CNumber (Num 0))
    /\ (forall (this : Dual.SqlServerAdapter) (r : RunResult),
           Dual.useNativeDriver this = false ->
           snd (Dual.run d this query params tr) = Resolved r ->
           (NativePath.isInsert query = false -> changes r = CNumber (Num 0))
           /\ ((changes r = CNumber (Num 1)
                /\ NativePath.isInsert query = true /\ gt0 (lastID r) = true)
               \/ changes r = CNumber (Num 0)))
    /\ (forall (this : Dual.SqlServerAdapter),
           Dual.useNativeDriver this = true ->
           Dual.run d this query params
           = NativePath.run d (Dual.connectionString this) query params)
    /\ (forall (this : NativeOnly.SqlServerAdapter),
           NativeOnly.run d this query params
           = NativePath.run d (NativeOnly.connectionString this) query params)
    /\ (forall (cs : string) (r : RunResult),
           snd (NativePath.run d cs query params tr) = Resolved r ->
           (NativePath.isInsert query = false -> lastID r = CNumber (Num 0))
           /\ (NativePath.isInsert query = true ->
               changes r = CNumber (Num (if gt0 (lastID r) then 1 else 0)))
           /\ (NativePath.isInsert query = false ->
               exists res,
                 native_query d tr cs query (Some params) = inr res
                 /\ changes r
                    = match res with
                      | RNumber n => CNumber n
                      | RObject o =>
                          match get o "rowsAffected" with
                          | Some v => v
                          | None => CNumber (Num 0)
                          end
                      | RArray _ | RUndefined | RNull => CNumber (Num 0)
                      end)).
Proof.
  intros d query params tr.
  assert (Native : forall (cs : string) (r : RunResult),
             snd (NativePath.run d cs query params tr) = Resolved r ->
             (NativePath.isInsert query = false -> lastID r = CNumber (Num 0))
             /\ (NativePath.isInsert query = true ->
                 changes r = CNumber (Num (if gt0 (lastID r) then 1 else 0)))
             /\ (NativePath.isInsert query = false ->
                 exists res,
                   native_query d tr cs query (Some params) = inr res
                   /\ changes r
                      = match res with
                        | RNumber n => CNumber n
                        | RObject o =>
                            match get o "rowsAffected" with
                            | Some v => v
                            | None => CNumber (Num 0)
                            end
                        | RArray _ | RUndefined | RNull => CNumber (Num 0)
                        end)).
  { intros cs r Hr.
    destruct (NativePath.isInsert query) eqn:E.
    - rewrite (native_run_insert d cs query params tr E) in Hr. simpl in Hr.
      destruct (native_query d tr cs _ _) as [m|res]; [discriminate|].
      injection Hr as <-. simpl.
      repeat split; discriminate.
    - rewrite (native_run_other d cs query params tr E) in Hr. simpl in Hr.
      destruct (native_query d tr cs _ _) as [m|res] eqn:Eq; [discriminate|].
      injection Hr as <-. simpl.
      repeat split; try discriminate.
      intros _. exists res. split; [reflexivity|].
      destruct res as [| |n|o|rows]; try reflexivity.
      unfold NativePath.changesOfResults, has, NativePath.prop.
      now destruct (get o "rowsAffected"). }
  assert (Pooled : forall (this : Dual.SqlServerAdapter) (r : RunResult),
             snd (Dual.runWithMssql d this query params tr) = Resolved r ->
             (NativePath.isInsert query = false -> lastID r = CNumber (Num 0))
             /\ (NativePath.isInsert query = false -> changes r = CNumber (Num 0))
             /\ ((changes r = CNumber (Num 1)
                  /\ NativePath.isInsert query = true /\ gt0 (lastID r) = true)
                 \/ changes r = CNumber (Num 0))).
  { intros this r. unfold Dual.runWithMssql.
    destruct (Dual.pool this) as [p|]; [| discriminate].
    destruct (NativePath.isInsert query) eqn:E; unfold bind, ret, poolQuery; simpl.
    - destruct (pool_query d tr p _ _ _) as [m|res]; [discriminate|].
      intros Hr. injection Hr as <-. simpl.
      repeat split; try discriminate.
      unfold Dual.getAffectedRows.
      destruct (_ =? "INSERT"); simpl; [| now right].
      match goal with |- context [gt0 ?v] => destruct (gt0 v) eqn:G end;
        [left; now repeat split | now right].
    - destruct (pool_query d tr p _ _ _) as [m|res]; [discriminate|].
      intros Hr. injection Hr as <-. simpl.
      unfold Dual.getAffectedRows.
      destruct (_ =? "INSERT"); simpl; repeat split; now right. }
  repeat match goal with |- _ /\ _ => split end.
  - intros this r Hq Hr. unfold Dual.run in Hr.
    destruct (Dual.useNativeDriver this).
    + now apply (Native _ _ Hr).
    + now apply (Pooled _ _ Hr).
  - intros this r Hp Hr. rewrite (Dual_run_pooled d this query params Hp) in Hr.
    destruct (Pooled _ _ Hr) as (_ & H1 & H2). now split.
  - intros this Hn. now apply Dual_run_native.
  - reflexivity.
  - exact Native.
Qed.

(** C2 on a DELETE, on the pool and on msnodesqlv8. *)
Lemma C2_run_changes_and_lastID_witness :
  let d := Samples.poolUp in
  let pooled := fst (snd (Dual.init d (Dual.constructor false Samples.hostOnly) [])) in
  let native := Dual.constructor true Samples.hostOnly in
  snd (Dual.run d pooled "DELETE FROM t" [] [])
  = Resolved {| changes := CNumber (Num 0); lastID := CNumber (Num 0) |}
  /\ snd (Dual.run d native "DELETE FROM t" [] [])
     = Resolved {| changes := CNumber (Num 0); lastID := CNumber (Num 0) |}
  /\ lastID {| changes := CNumber (Num 0); lastID := CNumber (Num 0) |} = CNumber (Num 0)
  /\ changes {| changes := CNumber (Num 0); lastID := CNumber (Num 0) |} = CNumber (Num 0).
Proof.
  destruct (C2_run_changes_and_lastID Samples.poolUp "DELETE FROM t" [] [])
    as (Hlast & Hpool & _).
  split; [reflexivity | split; [reflexivity | split]].
  - apply (Hlast (Dual.constructor true Samples.hostOnly)); reflexivity.
  - apply (Hpool (fst (snd (Dual.init Samples.poolUp
                              (Dual.constructor false Samples.hostOnly) []))));
      reflexivity.
Defined.

(** C3, counterexample.  On the pool the identity does not come from the
    returned rows.  An INSERT for which mssql returns no rows and 7 in the
    output parameter [insertedId] resolves with [lastID] 7; an INSERT for
    which mssql returns a last row with [LastID] 9 and NULL in the output
    parameter resolves with [lastID] 0. *)
Lemma C3_pooled_identity_is_the_output_parameter :
  let this1 :=
    fst (snd (Dual.init Samples.poolIdentity (Dual.constructor false Samples.hostOnly) [])) in
  let this2 :=
    fst (snd (Dual.init Samples.poolRowOnly (Dual.constructor false Samples.hostOnly) [])) in
  NativePath.isInsert "INSERT INTO t (a) VALUES (1)" = true
  /\ (Dual.useNativeDriver this1 = false /\ Dual.pool this1 = Some 1)
  /\ (Dual.useNativeDriver this2 = false /\ Dual.pool this2 = Some 1)
  /\ snd (Dual.run Samples.poolIdentity this1 "INSERT INTO t (a) VALUES (1)" [] [])
     = Resolved {| changes := CNumber (Num 1); lastID := CNumber (Num 7) |}
  /\ snd (Dual.run Samples.poolRowOnly this2 "INSERT INTO t (a) VALUES (1)" [] [])
     = Resolved {| changes := CNumber (Num 0); lastID := CNumber (Num 0) |}.
Proof.
  vm_compute. repeat split.
Qed.

(** On the pool, an INSERT whose keyword is followed by a line break and
    not by a space resolves with [changes] 0 although an identity came
    back: [getAffectedRows] cuts the first word at a space, while [run]
    tests the statement with [startsWith]. *)
Lemma runWithMssql_insert_before_line_break :
  let this :=
    fst (snd (Dual.init Samples.poolIdentity (Dual.constructor false Samples.hostOnly) [])) in
  let query := "INSERT" ++ String (ascii_of_nat 10) "INTO t (a) VALUES (1)" in
  NativePath.isInsert query = true
  /\ snd (Dual.run Samples.poolIdentity this query [] [])
     = Resolved {| changes := CNumber (Num 0); lastID := CNumber (Num 7) |}.
Proof.
  vm_compute. repeat split.
Qed.

(** C3, as amended.  Let the statement start with INSERT once trimmed and
    upper-cased.  On msnodesqlv8 (native-only adapter and dual-driver
    adapter alike) [run] sends the statement followed by
    [; SELECT SCOPE_IDENTITY() AS LastID]; when the answer is an array
    whose last element carries a positive [LastID], [run] resolves with
    that value as [lastID] and [changes] 1; when the answer is not such an
    array, or its last element carries no [LastID] or NULL, [run] resolves
    with [lastID] 0 and [changes] 0.  On the pool the identity is the
    output parameter [insertedId], not an element of the returned rows:
    when it is positive [run] resolves with it as [lastID], and with
    [changes] 1 if the first word of the trimmed statement, cut at a
    space, is INSERT; when it is absent or NULL [run] resolves with
    [lastID] 0 and [changes] 0. *)
Theorem C3_insert_identity :
  forall (d : Drivers) (query : string) (params : list jsval) (tr : list event),
    NativePath.isInsert query = true ->
    let nativeText := query ++ "; SELECT SCOPE_IDENTITY() AS LastID" in
    let pooledText :=
      PoolPath.namedQuery query ++ "; SELECT @insertedId = SCOPE_IDENTITY();" in
    (forall this : Dual.SqlServerAdapter,
        Dual.useNativeDriver this = true ->
        Dual.run d this query params
        = NativePath.run d (Dual.connectionString this) query params)
    /\ (forall this : NativeOnly.SqlServerAdapter,
           NativeOnly.run d this query params
           = NativePath.run d (NativeOnly.connectionString this) query params)
    /\ (forall (cs : string) (rows : list row) (last : row) (n : Z),
           native_query d tr cs nativeText (Some params) = inr (RArray (rows ++ [last])) ->
           get last "LastID" = Some (CNumber (Num n)) ->
           (0 < n)%Z ->
           snd (NativePath.run d cs query params tr)
           = Resolved {| changes := CNumber (Num 1); lastID := CNumber (Num n) |})
    /\ (forall (cs : string) (res : results),
           native_query d tr cs nativeText (Some params) = inr res ->
           (forall rows last, res = RArray (rows ++ [last]) ->
                              get last "LastID" = None \/ get last "LastID" = Some CNull) ->
           snd (NativePath.run d cs query params tr)
           = Resolved {| changes := CNumber (Num 0); lastID := CNumber (Num 0) |})
    /\ (forall (this : Dual.SqlServerAdapter) (p : poolHandle) (res : QueryResult) (n : Z),
           Dual.useNativeDriver this = false ->
           Dual.pool this = Some p ->
           pool_query d tr p (PoolPath.bindParams params) ["insertedId"] pooledText = inr res ->
           get (output res) "insertedId" = Some (CNumber (Num n)) ->
           (0 < n)%Z ->
           exists c,
             snd (Dual.run d this query params tr)
             = Resolved {| changes := c; lastID := CNumber (Num n) |}
             /\ (toUpperCase (PoolPath.first (split (trim query) " ")) = "INSERT" ->
                 c = CNumber (Num 1)))
    /\ (forall (this : Dual.SqlServerAdapter) (p : poolHandle) (res : QueryResult),
           Dual.useNativeDriver this = false ->
           Dual.pool this = Some p ->
           pool_query d tr p (PoolPath.bindParams params) ["insertedId"] pooledText = inr res ->
           get (output res) "insertedId" = None \/ get (output res) "insertedId" = Some CNull ->
           snd (Dual.run d this query params tr)
           = Resolved {| changes := CNumber (Num 0); lastID := CNumber (Num 0) |}).
Proof.
  intros d query params tr Hins nativeText pooledText.
  repeat match goal with |- _ /\ _ => split end.
  - intros this Hn. now apply Dual_run_native.
  - reflexivity.
  - intros cs rows last n Hq Hget Hn.
    rewrite (native_run_insert d cs query params tr Hins). simpl.
    fold nativeText. rewrite Hq.
    rewrite (lastIDOfResults_identity rows last n Hget Hn).
    unfold gt0. simpl.
    destruct (0 <? n)%Z eqn:E; [reflexivity | apply Z.ltb_ge in E; lia].
  - intros cs res Hq Hnone.
    rewrite (native_run_insert d cs query params tr Hins). simpl.
    fold nativeText. rewrite Hq.
    now rewrite (lastIDOfResults_none res Hnone).
  - intros this p res n Hpooled Hp Hq Hget Hn.
    rewrite (Dual_run_pooled d this query params Hpooled).
    unfold Dual.runWithMssql. rewrite Hp, Hins.
    unfold bind, ret, poolQuery. simpl. fold pooledText. rewrite Hq.
    unfold NativePath.prop. rewrite Hget. simpl.
    assert (Hnz : (n =? 0)%Z = false) by (apply Z.eqb_neq; lia).
    rewrite Hnz. simpl.
    eexists. split; [reflexivity|].
    intros Hword. unfold Dual.getAffectedRows. rewrite Hword. simpl.
    unfold gt0. simpl.
    destruct (0 <? n)%Z eqn:E; [reflexivity | apply Z.ltb_ge in E; lia].
  - intros this p res Hpooled Hp Hq Hnone.
    rewrite (Dual_run_pooled d this query params Hpooled).
    unfold Dual.runWithMssql. rewrite Hp, Hins.
    unfold bind, ret, poolQuery. simpl. fold pooledText. rewrite Hq.
    unfold NativePath.prop, Dual.getAffectedRows.
    destruct Hnone as [E|E]; rewrite E; simpl;
      now destruct (_ =? "INSERT").
Qed.

(** C3 on an INSERT: msnodesqlv8 returning a row with the identity 5 and
    returning no row, the pool returning the identity 7 in the output
    parameter and returning NULL there. *)
Lemma C3_insert_identity_witness :
  let query := "INSERT INTO t (a) VALUES (?)" in
  let pooled := Dual.setPool (Dual.constructor false Samples.hostOnly) (Some 1) in
  NativePath.isInsert query = true
  /\ snd (NativePath.run Samples.nativeIdentity "Server=HOST;" query [JNumber 1] [])
     = Resolved {| changes := CNumber (Num 1); lastID := CNumber (Num 5) |}
  /\ snd (NativePath.run Samples.poolUp "Server=HOST;" query [JNumber 1] [])
     = Resolved {| changes := CNumber (Num 0); lastID := CNumber (Num 0) |}
  /\ (exists c,
         snd (Dual.run Samples.poolIdentity pooled query [JNumber 1] [])
         = Resolved {| changes := c; lastID := CNumber (Num 7) |}
         /\ (toUpperCase (PoolPath.first (split (trim query) " ")) = "INSERT" ->
             c = CNumber (Num 1)))
  /\ snd (Dual.run Samples.poolRowOnly pooled query [JNumber 1] [])
     = Resolved {| changes := CNumber (Num 0); lastID := CNumber (Num 0) |}.
Proof.
  split; [reflexivity|].
  destruct (C3_insert_identity Samples.nativeIdentity "INSERT INTO t (a) VALUES (?)"
              [JNumber 1] [] eq_refl) as (_ & _ & Hid & _).
  destruct (C3_insert_identity Samples.poolUp "INSERT INTO t (a) VALUES (?)"
              [JNumber 1] [] eq_refl) as (_ & _ & _ & Hnone & _).
  destruct (C3_insert_identity Samples.poolIdentity "INSERT INTO t (a) VALUES (?)"
              [JNumber 1] [] eq_refl) as (_ & _ & _ & _ & Hout & _).
  destruct (C3_insert_identity Samples.poolRowOnly "INSERT INTO t (a) VALUES (?)"
              [JNumber 1] [] eq_refl) as (_ & _ & _ & _ & _ & Hnull).
  split; [| split; [| split]].
  - apply (Hid "Server=HOST;" [] [("LastID", CNumber (Num 5))] 5%Z);
      [reflexivity | reflexivity | lia].
  - apply (Hnone "Server=HOST;" (RArray [])); [reflexivity|].
    intros rows last E. destruct rows; discriminate E.
  - apply (Hout _ 1 {| recordset := None; output := [("insertedId", CNumber (Num 7))] |} 7%Z);
      [reflexivity | reflexivity | reflexivity | reflexivity | lia].
  - apply (Hnull _ 1 {| recordset := Some [[("LastID", CNumber (Num 9))]];
                        output := [("insertedId", CNull)] |});
      [reflexivity | reflexivity | reflexivity | now right].
Defined.

(** * Further properties of the adapters *)

(** ** Names and values bound on the pooled path *)

Lemma to_uint_nonnil (n : nat) : Nat.to_uint n <> Decimal.Nil.
Proof.
  rewrite <- (DecimalNat.Unsigned.of_to n) at 1.
  rewrite DecimalNat.Unsigned.to_of. apply DecimalFacts.unorm_nonnil.
Qed.

Lemma string_of_nat_inj (a b : nat) : string_of_nat a = string_of_nat b -> a = b.
Proof.
  unfold string_of_nat. intros H.
  apply DecimalNat.Unsigned.to_uint_inj.
  assert (E : NilZero.uint_of_string (NilZero.string_of_uint (Nat.to_uint a))
              = NilZero.uint_of_string (NilZero.string_of_uint (Nat.to_uint b)))
    by now rewrite H.
  rewrite !NilZero.usu in E by apply to_uint_nonnil.
  now injection E.
Qed.

Lemma string_of_uint_digits (d : Decimal.uint) :
  Text.allChars Text.isDigit (NilEmpty.string_of_uint d) = true.
Proof. induction d; simpl; auto. Qed.

Lemma string_of_nat_digits (n : nat) : Text.allChars Text.isDigit (string_of_nat n) = true.
Proof.
  unfold string_of_nat, NilZero.string_of_uint.
  destruct (Nat.to_uint n); try reflexivity; apply string_of_uint_digits.
Qed.

Lemma allChars_append f (a b : string) :
  Text.allChars f (a ++ b) = Text.allChars f a && Text.allChars f b.
Proof.
  induction a as [|x a IH]; simpl; [reflexivity|].
  now rewrite IH, andb_assoc.
Qed.

Lemma allChars_impl (f g : ascii -> bool) (s : string) :
  (forall c, f c = true -> g c = true) ->
  Text.allChars f s = true -> Text.allChars g s = true.
Proof.
  intros Hfg. induction s as [|x s IH]; simpl; [reflexivity|].
  intros H. apply andb_true_iff in H as [Hx Hs].
  now rewrite (Hfg _ Hx), (IH Hs).
Qed.

Lemma prefix_empty (s : string) : prefix "" s = true.
Proof. now destruct s. Qed.

(** [s.includes(c)] for a text [c] of one code unit. *)
Lemma includes_char (s : string) (c : ascii) :
  includes s (String c "") = negb (Text.noChar c s).
Proof.
  unfold Text.noChar.
  induction s as [|x s IH]; simpl; [reflexivity|].
  rewrite IH. destruct (ascii_dec c x) as [->|n].
  - now rewrite prefix_empty, Ascii.eqb_refl.
  - assert (E : Ascii.eqb x c = false) by (apply Ascii.eqb_neq; congruence).
    now rewrite E.
Qed.

Lemma includes_false_noChar (s : string) (c : ascii) :
  includes s (String c "") = false <-> Text.noChar c s = true.
Proof.
  rewrite includes_char. now destruct (Text.noChar c s).
Qed.

Lemma digit_is_not_placeholder (c : ascii) :
  Text.isDigit c = true -> negb (Ascii.eqb c "?") = true.
Proof.
  destruct (Ascii.eqb_spec c "?") as [->|_]; [discriminate | reflexivity].
Qed.

Lemma param_name_inj (a b : nat) :
  "param" ++ string_of_nat a = "param" ++ string_of_nat b -> a = b.
Proof.
  simpl. intros E. injection E as E. now apply string_of_nat_inj.
Qed.

Lemma mapiFrom_snd (params : list jsval) (start : nat) :
  map snd (PoolPath.mapiFrom (fun index param => ("param" ++ string_of_nat index, param))
             start params) = params.
Proof.
  revert start; induction params as [|v params IH]; intros start; simpl;
    [reflexivity | now rewrite IH].
Qed.

Lemma mapiFrom_fst (params : list jsval) (start : nat) :
  map fst (PoolPath.mapiFrom (fun index param => ("param" ++ string_of_nat index, param))
             start params)
  = map (fun i => "param" ++ string_of_nat i) (seq start (List.length params)).
Proof.
  revert start; induction params as [|v params IH]; intros start; simpl;
    [reflexivity | now rewrite IH].
Qed.

(** X1.  On the pooled path the values are bound in the order given, one
    input per value, under the names [param0], [param1], ... in that
    order, and no two inputs of a request have the same name. *)
Theorem X1_bound_inputs_are_ordered_and_distinct :
  forall params : list jsval,
    map snd (PoolPath.bindParams params) = params
    /\ map fst (PoolPath.bindParams params)
       = map (fun i => "param" ++ string_of_nat i) (seq 0 (List.length params))
    /\ NoDup (map fst (PoolPath.bindParams params)).
Proof.
  intros params. unfold PoolPath.bindParams.
  split; [apply mapiFrom_snd | split; [apply mapiFrom_fst |]].
  rewrite mapiFrom_fst.
  apply Finite.Injective_map_NoDup; [| apply seq_NoDup].
  intros a b. apply param_name_inj.
Qed.

(** ** The rewritten query *)

Lemma replaceAllFrom_no_match c f offset (s : string) :
  Text.noChar c s = true -> replaceAllFrom c f offset s = s.
Proof.
  unfold Text.noChar. revert offset.
  induction s as [|x s IH]; intros offset; simpl; [reflexivity|].
  intros H. apply andb_true_iff in H as [Hx Hs].
  destruct (Ascii.eqb x c); [discriminate|].
  now rewrite IH.
Qed.

Lemma replaceAllFrom_removes c f offset (s : string) :
  (forall m i, Text.noChar c (f m i) = true) ->
  Text.noChar c (replaceAllFrom c f offset s) = true.
Proof.
  intros Hf. unfold Text.noChar in *. revert offset.
  induction s as [|x s IH]; intros offset; simpl; [reflexivity|].
  destruct (Ascii.eqb x c) eqn:E.
  - now rewrite allChars_append, Hf, IH.
  - simpl. now rewrite E, IH.
Qed.

Lemma param_reference_has_no_placeholder (i : nat) :
  Text.noChar "?" ("@param" ++ string_of_nat i) = true.
Proof.
  unfold Text.noChar. rewrite allChars_append. simpl.
  apply (allChars_impl Text.isDigit); [apply digit_is_not_placeholder|].
  apply string_of_nat_digits.
Qed.

(** X2.  The query the pooled path sends has no question mark left: every
    one is rewritten, wherever it stands in the text.  A query is sent
    unchanged exactly when it has no question mark. *)
Theorem X2_every_question_mark_is_rewritten :
  forall query : string,
    includes (PoolPath.namedQuery query) "?" = false
    /\ (PoolPath.namedQuery query = query <-> includes query "?" = false).
Proof.
  intros query.
  assert (Hno : includes (PoolPath.namedQuery query) "?" = false).
  { apply includes_false_noChar. unfold PoolPath.namedQuery, replaceAll.
    apply replaceAllFrom_removes. intros _ i. apply param_reference_has_no_placeholder. }
  split; [exact Hno | split].
  - intros E. now rewrite E in Hno.
  - intros H. apply includes_false_noChar in H.
    unfold PoolPath.namedQuery, replaceAll. now apply replaceAllFrom_no_match.
Qed.

(** X3.  When the text before the first question mark of a query has n
    code units, the pooled path writes [@param] followed by n in its
    place.  The first value is bound under [param0], so the name written
    for the first placeholder is the name of the first input exactly when
    the query starts with the placeholder. *)
Theorem X3_first_placeholder_is_named_by_its_offset :
  forall (before after : string) (v : jsval) (params : list jsval),
    includes before "?" = false ->
    exists name rest,
      PoolPath.namedQuery (before ++ "?" ++ after) = before ++ "@" ++ name ++ rest
      /\ name = "param" ++ string_of_nat (length before)
      /\ (nth_error (PoolPath.bindParams (v :: params)) 0 = Some (name, v) <-> before = "").
Proof.
  intros before after v params H.
  apply includes_false_noChar in H.
  exists ("param" ++ string_of_nat (length before)).
  eexists. split; [| split; [reflexivity|]].
  - rewrite namedQuery_placeholder.
    rewrite (replaceAllFrom_no_match "?" _ 0 before H). reflexivity.
  - rewrite bindParams_nth_error. simpl. split.
    + intros E. injection E as E. apply string_of_nat_inj in E.
      destruct before; [reflexivity | discriminate].
    + now intros ->.
Qed.

(** X3 on [SELECT ? AS V]: the text before the placeholder has 7 code
    units. *)
Lemma X3_first_placeholder_is_named_by_its_offset_witness :
  exists name rest,
    PoolPath.namedQuery ("SELECT " ++ "?" ++ " AS V") = "SELECT " ++ "@" ++ name ++ rest
    /\ name = "param" ++ string_of_nat (length "SELECT ")
    /\ (nth_error (PoolPath.bindParams [JNumber 42]) 0 = Some (name, JNumber 42)
        <-> "SELECT " = "").
Proof.
  apply (X3_first_placeholder_is_named_by_its_offset "SELECT " " AS V" (JNumber 42) []).
  reflexivity.
Defined.

(** ** The INSERT tests *)

(** X4.  [getAffectedRows] answers 1 or 0.  It answers 1 exactly when the
    first word of the trimmed statement, cut at a space, is INSERT in
    upper case and [lastID] is positive; any statement it answers 1 for is
    one that [run] treats as an INSERT. *)
Theorem X4_getAffectedRows_counts_inserts_only :
  forall (query : string) (lastID : colval),
    (Dual.getAffectedRows query lastID = 1%Z \/ Dual.getAffectedRows query lastID = 0%Z)
    /\ (Dual.getAffectedRows query lastID = 1%Z
        <-> toUpperCase (PoolPath.first (split (trim query) " ")) = "INSERT"
            /\ gt0 lastID = true)
    /\ (Dual.getAffectedRows query lastID = 1%Z -> NativePath.isInsert query = true).
Proof.
  intros query lastID. unfold Dual.getAffectedRows.
  destruct (String.eqb_spec (toUpperCase (PoolPath.first (split (trim query) " "))) "INSERT")
    as [E|N]; simpl.
  - destruct (gt0 lastID).
    + split; [now left | split; [split; [now intros _ | reflexivity] |]].
      intros _. now apply first_word_insert_isInsert.
    + split; [now right | split; [split; [discriminate |] | discriminate]].
      intros [_ H]; discriminate.
  - split; [now right | split; [split; [discriminate |] | discriminate]].
    intros [H _]. contradiction.
Qed.

(** X4 on an INSERT that returned the identity 7. *)
Lemma X4_getAffectedRows_counts_inserts_only_witness :
  Dual.getAffectedRows "insert into t (a) values (1)" (CNumber (Num 7)) = 1%Z
  /\ NativePath.isInsert "insert into t (a) values (1)" = true.
Proof.
  split; [reflexivity|].
  apply (X4_getAffectedRows_counts_inserts_only "insert into t (a) values (1)"
           (CNumber (Num 7))).
  reflexivity.
Defined.

Lemma isWhiteSpace_toUpperChar (c : ascii) :
  isWhiteSpace (toUpperChar c) = isWhiteSpace c.
Proof. destruct c as [[] [] [] [] [] [] [] []]; reflexivity. Qed.

Lemma trimStart_toUpperCase (s : string) :
  trimStart (toUpperCase s) = toUpperCase (trimStart s).
Proof.
  induction s as [|c s IH]; simpl; [reflexivity|].
  rewrite isWhiteSpace_toUpperChar. now destruct (isWhiteSpace c).
Qed.

Lemma trimEnd_toUpperCase (s : string) :
  trimEnd (toUpperCase s) = toUpperCase (trimEnd s).
Proof.
  induction s as [|c s IH]; simpl; [reflexivity|].
  rewrite IH, isWhiteSpace_toUpperChar.
  destruct (trimEnd s); simpl; [now destruct (isWhiteSpace c) | reflexivity].
Qed.

Lemma trim_toUpperCase (s : string) : trim (toUpperCase s) = toUpperCase (trim s).
Proof.
  unfold trim. now rewrite trimStart_toUpperCase, trimEnd_toUpperCase.
Qed.

Lemma trimStart_white (w : string) :
  Text.allChars isWhiteSpace w = true -> trimStart w = "".
Proof.
  induction w as [|c w IH]; simpl; [reflexivity|].
  intros H. apply andb_true_iff in H as [Hc Hw]. now rewrite Hc, IH.
Qed.

Lemma trimEnd_white (w : string) :
  Text.allChars isWhiteSpace w = true -> trimEnd w = "".
Proof.
  induction w as [|c w IH]; simpl; [reflexivity|].
  intros H. apply andb_true_iff in H as [Hc Hw]. now rewrite IH, Hc.
Qed.

Lemma trimStart_white_append (w s : string) :
  Text.allChars isWhiteSpace w = true -> trimStart (w ++ s) = trimStart s.
Proof.
  induction w as [|c w IH]; simpl; [reflexivity|].
  intros H. apply andb_true_iff in H as [Hc Hw]. now rewrite Hc, IH.
Qed.

Lemma trimEnd_append_white (s w : string) :
  Text.allChars isWhiteSpace w = true -> trimEnd (s ++ w) = trimEnd s.
Proof.
  intros H. induction s as [|c s IH]; simpl.
  - now apply trimEnd_white.
  - now rewrite IH.
Qed.

(** White space around a text does not change what [trim] returns. *)
Lemma trim_padding (w1 s w2 : string) :
  Text.allChars isWhiteSpace w1 = true ->
  Text.allChars isWhiteSpace w2 = true ->
  trim (w1 ++ s ++ w2) = trim s.
Proof.
  intros H1 H2. unfold trim. rewrite (trimStart_white_append w1 _ H1).
  induction s as [|c s IH]; simpl.
  - now rewrite (trimStart_white w2 H2).
  - destruct (isWhiteSpace c); [exact IH|].
    change (String c (s ++ w2)) with (String c s ++ w2).
    now apply trimEnd_append_white.
Qed.

(** X5.  Whether [run] treats a statement as an INSERT does not depend on
    the case of its letters nor on white space before or after it: two
    statements that differ in these only are classified alike. *)
Theorem X5_isInsert_ignores_case_and_padding :
  forall q1 q2 w1 w2 : string,
    Text.allChars isWhiteSpace w1 = true ->
    Text.allChars isWhiteSpace w2 = true ->
    toUpperCase q1 = toUpperCase q2 ->
    NativePath.isInsert (w1 ++ q1 ++ w2) = NativePath.isInsert q2.
Proof.
  intros q1 q2 w1 w2 H1 H2 E. unfold NativePath.isInsert.
  rewrite (trim_padding w1 q1 w2 H1 H2).
  now rewrite <- !trim_toUpperCase, E.
Qed.

(** X5 on a statement in lower case after a line break and two spaces. *)
Lemma X5_isInsert_ignores_case_and_padding_witness :
  NativePath.isInsert (String (ascii_of_nat 10) "  " ++ "insert into t values (1)" ++ " ")
  = NativePath.isInsert "INSERT INTO T VALUES (1)".
Proof.
  apply (X5_isInsert_ignores_case_and_padding "insert into t values (1)"
           "INSERT INTO T VALUES (1)" (String (ascii_of_nat 10) "  ") " ");
    reflexivity.
Defined.

(** ** The server string and the pool configuration *)

Lemma split_no_separator (s : string) (sep : ascii) :
  Text.noChar sep s = true -> split s sep = [s].
Proof.
  unfold Text.noChar. induction s as [|c s IH]; simpl; [reflexivity|].
  intros H. apply andb_true_iff in H as [Hc Hs].
  destruct (Ascii.eqb c sep); [discriminate|].
  now rewrite (IH Hs).
Qed.

Lemma split_at_separator (a b : string) (sep : ascii) :
  Text.noChar sep a = true -> split (a ++ String sep b) sep = a :: split b sep.
Proof.
  unfold Text.noChar. induction a as [|c a IH]; simpl.
  - intros _. now rewrite Ascii.eqb_refl.
  - intros H. apply andb_true_iff in H as [Hc Ha].
    destruct (Ascii.eqb c sep); [discriminate|].
    now rewrite (IH Ha).
Qed.

Lemma includes_separator (a b : string) (sep : ascii) :
  includes (a ++ String sep b) (String sep "") = true.
Proof.
  rewrite includes_char. unfold Text.noChar. rewrite allChars_append. simpl.
  rewrite Ascii.eqb_refl. simpl. now rewrite andb_false_r.
Qed.

Lemma startsWith_char (s : string) (c : ascii) :
  startsWith s (String c "") = true -> exists r, s = String c r.
Proof.
  unfold startsWith. destruct s as [|x s]; simpl; [discriminate|].
  destruct (ascii_dec c x) as [->|]; [| discriminate].
  intros _. now exists s.
Qed.

(** X6.  A server string [host\inst], where neither part has a backslash,
    is parsed into the server name [host] and the instance name [inst];
    more text after a second backslash is ignored.  The dual-driver
    adapter gives the pool the server [host\inst], so a server string
    with one backslash is given to the pool as it was written, and the
    CommonJS adapter gives the pool the server [host]. *)
Theorem X6_server_string_with_instance :
  forall (ci : ConnectionInfo.t) (host inst more : string),
    includes host "\" = false ->
    includes inst "\" = false ->
    more = "" \/ startsWith more "\" = true ->
    ConnectionInfo.server ci = host ++ "\" ++ inst ++ more ->
    PoolPath.serverNameOf (ConnectionInfo.server ci) = host
    /\ PoolPath.instanceNameOf (ConnectionInfo.server ci) = Some inst
    /\ PoolConfig.server (Dual.poolConfig ci) = host ++ "\" ++ inst
    /\ PoolConfig.server (Cjs.config (Cjs.constructor ci)) = host.
Proof.
  intros ci host inst more Hh Hi Hm Hs.
  apply includes_false_noChar in Hh. apply includes_false_noChar in Hi.
  assert (Hsplit : exists rest, split (ConnectionInfo.server ci) "\" = host :: inst :: rest).
  { rewrite Hs. change (host ++ "\" ++ inst ++ more) with (host ++ String "\" (inst ++ more)).
    rewrite (split_at_separator host _ "\" Hh).
    destruct Hm as [->|Hm].
    - rewrite append_empty_r, (split_no_separator inst "\" Hi). now exists [].
    - destruct (startsWith_char more "\" Hm) as [tail ->].
      rename tail into more.
      rewrite (split_at_separator inst more "\" Hi). now eexists. }
  destruct Hsplit as [rest Hsplit].
  assert (Hinc : PoolPath.hasInstance (ConnectionInfo.server ci) = true).
  { unfold PoolPath.hasInstance. rewrite Hs.
    change (host ++ "\" ++ inst ++ more) with (host ++ String "\" (inst ++ more)).
    apply includes_separator. }
  assert (Hname : PoolPath.serverNameOf (ConnectionInfo.server ci) = host)
    by (unfold PoolPath.serverNameOf; now rewrite Hinc, Hsplit).
  assert (Hinst : PoolPath.instanceNameOf (ConnectionInfo.server ci) = Some inst)
    by (unfold PoolPath.instanceNameOf; now rewrite Hinc, Hsplit).
  split; [exact Hname | split; [exact Hinst | split]].
  - unfold Dual.poolConfig. simpl. now rewrite Hname, Hinst.
  - unfold Cjs.constructor. simpl. exact Hname.
Qed.

(** X6 on [HOST\INST]. *)
Lemma X6_server_string_with_instance_witness :
  PoolPath.serverNameOf "HOST\INST" = "HOST"
  /\ PoolPath.instanceNameOf "HOST\INST" = Some "INST"
  /\ PoolConfig.server (Dual.poolConfig MoreSamples.instanceWithLogin) = "HOST\INST"
  /\ PoolConfig.server (Cjs.config (Cjs.constructor MoreSamples.instanceWithLogin)) = "HOST".
Proof.
  apply (X6_server_string_with_instance MoreSamples.instanceWithLogin "HOST" "INST" "");
    [reflexivity | reflexivity | now left | reflexivity].
Defined.

(** Reading a property after an assignment. *)
Lemma get_set_same {V} (o : object V) (k : string) (v : V) : get (set o k v) k = Some v.
Proof.
  induction o as [|[k' v'] o IH]; simpl.
  - now rewrite String.eqb_refl.
  - destruct (k' =? k) eqn:E; simpl; [now rewrite String.eqb_refl | now rewrite E].
Qed.

Lemma get_set_other {V} (o : object V) (k k' : string) (v : V) :
  k' <> k -> get (set o k' v) k = get o k.
Proof.
  intros N. apply String.eqb_neq in N.
  induction o as [|[k0 v0] o IH]; simpl.
  - now rewrite N.
  - destruct (k0 =? k') eqn:E; simpl.
    + apply String.eqb_eq in E. subst k0. now rewrite N.
    + now rewrite IH.
Qed.

Lemma get_spread_absent {V} (src o : object V) (k : string) :
  get src k = None -> get (spread o src) k = get o k.
Proof.
  unfold spread. revert o. induction src as [|[k' v'] src IH]; intros o; simpl;
    [reflexivity|].
  destruct (k' =? k) eqn:E; [discriminate|].
  intros H. rewrite (IH _ H). apply get_set_other. now apply String.eqb_neq.
Qed.

Lemma get_absent_key {V} (o : object V) (k : string) :
  ~ In k (map fst o) -> get o k = None.
Proof.
  induction o as [|[k' v'] o IH]; simpl; [reflexivity|].
  intros N. destruct (String.eqb_spec k' k) as [->|_].
  - elim N. now left.
  - apply IH. intros H. apply N. now right.
Qed.

Lemma get_spread_present {V} (src o : object V) (k : string) (v : V) :
  NoDup (map fst src) -> get src k = Some v -> get (spread o src) k = Some v.
Proof.
  unfold spread. revert o. induction src as [|[k' v'] src IH]; intros o; simpl;
    [discriminate|].
  intros D. inversion D as [|? ? Hnotin D']; subst.
  destruct (String.eqb_spec k' k) as [->|N].
  - intros [= ->].
    change (get (spread (set o k v) src) k = Some v).
    rewrite (get_spread_absent src _ k (get_absent_key src k Hnotin)).
    apply get_set_same.
  - intros H. now apply IH.
Qed.

(** X7.  The [options] of the pool configuration, in the dual-driver and
    in the CommonJS adapter.  A property of the caller's [options] object
    is copied with its value, also over [trustServerCertificate] and
    [instanceName], with one exception: without a user and a password,
    [trustedConnection] and [enableArithAbort] are set to [true] whatever
    the caller gave for them.  [trustServerCertificate] is the field of
    the connection parameters, or [true] without it, only when the
    caller's [options] do not carry it. *)
Theorem X7_pool_options_precedence :
  forall ci : ConnectionInfo.t,
    let o := PoolPath.poolOptions ci in
    let auth := truthyStr (ConnectionInfo.user ci) && truthyStr (ConnectionInfo.password ci) in
    let given := match ConnectionInfo.options ci with Some g => g | None => [] end in
    NoDup (map fst given) ->
    PoolConfig.options (Dual.poolConfig ci) = o
    /\ PoolConfig.options (Cjs.config (Cjs.constructor ci)) = o
    /\ (auth = false ->
        get o "trustedConnection" = Some (JBool true)
        /\ get o "enableArithAbort" = Some (JBool true))
    /\ (forall k v,
           get given k = Some v ->
           auth = true \/ (k <> "trustedConnection" /\ k <> "enableArithAbort") ->
           get o k = Some v)
    /\ (get given "trustServerCertificate" = None ->
        get o "trustServerCertificate"
        = Some (JBool (PoolPath.orTrue (ConnectionInfo.trustServerCertificate ci)))).
Proof.
  intros ci o auth given D.
  split; [reflexivity | split; [reflexivity |]].
  subst o. unfold PoolPath.poolOptions. fold auth.
  set (o0 := [("trustServerCertificate",
               JBool (PoolPath.orTrue (ConnectionInfo.trustServerCertificate ci)))]).
  set (o1 := match PoolPath.instanceNameOf (ConnectionInfo.server ci) with
             | Some i =>
                 if truthyStr (PoolPath.instanceNameOf (ConnectionInfo.server ci))
                 then set o0 "instanceName" (JString i) else o0
             | None => o0
             end).
  assert (E2 : match ConnectionInfo.options ci with
               | Some g => spread o1 g
               | None => o1
               end = spread o1 given)
    by (subst given; now destruct (ConnectionInfo.options ci)).
  rewrite E2. clear E2.
  assert (Htrust : get o1 "trustServerCertificate"
                   = Some (JBool (PoolPath.orTrue (ConnectionInfo.trustServerCertificate ci)))).
  { subst o1. destruct (PoolPath.instanceNameOf _) as [i|]; [| reflexivity].
    destruct (truthyStr (Some i)); reflexivity. }
  split; [| split].
  - intros Ha. rewrite Ha. split.
    + rewrite get_set_other by discriminate. apply get_set_same.
    + apply get_set_same.
  - intros k v Hget Hk.
    assert (Hs : get (spread o1 given) k = Some v) by now apply get_spread_present.
    destruct auth; [exact Hs|].
    destruct Hk as [Hk|[Hk1 Hk2]]; [discriminate|].
    rewrite !get_set_other by congruence. exact Hs.
  - intros Hnone.
    assert (Hs : get (spread o1 given) "trustServerCertificate"
                 = Some (JBool (PoolPath.orTrue (ConnectionInfo.trustServerCertificate ci))))
      by (rewrite get_spread_absent by exact Hnone; exact Htrust).
    destruct auth; [exact Hs|].
    rewrite !get_set_other by discriminate. exact Hs.
Qed.

(** X7 on connection parameters with a login and the options
    [{ Encrypt: "yes", trustServerCertificate: false }]. *)
Lemma X7_pool_options_precedence_witness :
  get (PoolConfig.options (Dual.poolConfig MoreSamples.instanceWithOptions))
    "trustServerCertificate" = Some (JBool false)
  /\ get (PoolConfig.options (Dual.poolConfig MoreSamples.instanceWithOptions))
       "Encrypt" = Some (JString "yes").
Proof.
  destruct (X7_pool_options_precedence MoreSamples.instanceWithOptions)
    as (_ & _ & _ & Hgiven & _).
  - repeat constructor; simpl; intuition discriminate.
  - split; apply Hgiven; solve [reflexivity | now left].
Defined.

(** ** The connection string for msnodesqlv8 *)

Lemma fold_left_append_texts {A} (f : A -> string) (l : list A) (start : string) :
  fold_left (fun acc x => acc ++ f x) l start = start ++ String.concat "" (map f l).
Proof.
  revert start. induction l as [|x l IH]; intros start; simpl.
  - now rewrite append_empty_r.
  - rewrite IH, append_assoc. destruct l as [|y l]; simpl; [| reflexivity].
    now rewrite !append_empty_r.
Qed.




Lemma prepareConnectionString_parts (driverVersion : string) (ci : ConnectionInfo.t) :
  NativePath.prepareConnectionString driverVersion ci
  = (if truthyStr (ConnectionInfo.user ci) && truthyStr (ConnectionInfo.password ci)
     then Variation.beforePassword driverVersion ci
          ++ "PWD=" ++ NativePath.interp (ConnectionInfo.password ci) ++ ";"
     else "Driver={ODBC Driver " ++ driverVersion ++ " for SQL Server};Server="
          ++ ConnectionInfo.server ci ++ ";Database=" ++ ConnectionInfo.database ci
          ++ ";Trusted_Connection=Yes;")
    ++ Variation.afterCredentials ci.
Proof.
  unfold NativePath.prepareConnectionString, Variation.afterCredentials,
    Variation.beforePassword.
  set (base := if truthyStr (ConnectionInfo.user ci) && truthyStr (ConnectionInfo.password ci)
               then _ else _).
  assert (Ebase : base
                  = (if truthyStr (ConnectionInfo.user ci)
                        && truthyStr (ConnectionInfo.password ci)
                     then ("Driver={ODBC Driver " ++ driverVersion
                           ++ " for SQL Server};Server=" ++ ConnectionInfo.server ci
                           ++ ";Database=" ++ ConnectionInfo.database ci
                           ++ ";UID=" ++ NativePath.interp (ConnectionInfo.user ci) ++ ";")
                          ++ "PWD=" ++ NativePath.interp (ConnectionInfo.password ci) ++ ";"
                     else "Driver={ODBC Driver " ++ driverVersion
                          ++ " for SQL Server};Server=" ++ ConnectionInfo.server ci
                          ++ ";Database=" ++ ConnectionInfo.database ci
                          ++ ";Trusted_Connection=Yes;")).
  { subst base. destruct (truthyStr (ConnectionInfo.user ci) && _); [| reflexivity].
    simpl. repeat (rewrite ?append_assoc; simpl). reflexivity. }
  rewrite <- Ebase. clear Ebase. clearbody base.
  set (T := "TrustServerCertificate=Yes;").
  set (P := "Port=" ++ NativePath.interpPort (ConnectionInfo.port ci) ++ ";").
  clearbody T P.
  assert (F : forall (o : object jsval) (start : string),
             fold_left (fun acc kv => acc ++ fst kv ++ "=" ++ toString (snd kv) ++ ";") o start
             = start ++ String.concat "" (map Variation.optionText o))
    by (intros o start; exact (fold_left_append_texts Variation.optionText o start)).
  destruct (NativePath.truthyBool _), (NativePath.truthyPort _),
    (ConnectionInfo.options ci) as [o|];
    rewrite ?F; cbn [map String.concat append];
    rewrite ?append_assoc, ?append_empty_r; reflexivity.
Qed.

(** ** The password in the log lines *)

Lemma stripPrefix_append (p t : string) : Logging.stripPrefix p (p ++ t) = Some t.
Proof.
  induction p as [|a p IH]; simpl; [now destruct t|].
  now rewrite Ascii.eqb_refl.
Qed.

Lemma stripPrefix_none (p s : string) :
  prefix p s = false -> Logging.stripPrefix p s = None.
Proof.
  revert s. induction p as [|a p IH]; intros s.
  - now rewrite prefix_empty.
  - destruct s as [|b s]; [reflexivity|].
    cbn [prefix Logging.stripPrefix].
    destruct (ascii_dec a b) as [->|N].
    + rewrite Ascii.eqb_refl. apply IH.
    + intros _. apply Ascii.eqb_neq in N. now rewrite N.
Qed.

(** An occurrence of [PWD=] cannot start in a text and end in a following
    [PWD=]. *)
Lemma prefix_pwd_straddle (b t : string) :
  b <> "" ->
  prefix "PWD=" b = false -> prefix "PWD=" (b ++ "PWD=" ++ t) = false.
Proof.
  intros Hb.
  destruct b as [|c1 b]; [now elim Hb|]. clear Hb.
  cbn [prefix append].
  destruct (ascii_dec "P" c1) as [_|_]; [| reflexivity].
  destruct b as [|c2 b]; cbn [prefix append].
  { intros _. destruct (ascii_dec "W" "P") as [E|_]; [discriminate E | reflexivity]. }
  destruct (ascii_dec "W" c2) as [_|_]; [| reflexivity].
  destruct b as [|c3 b]; cbn [prefix append].
  { intros _. destruct (ascii_dec "D" "P") as [E|_]; [discriminate E | reflexivity]. }
  destruct (ascii_dec "D" c3) as [_|_]; [| reflexivity].
  destruct b as [|c4 b]; cbn [prefix append].
  { intros _. destruct (ascii_dec "=" "P") as [E|_]; [discriminate E | reflexivity]. }
  destruct (ascii_dec "=" c4) as [_|_]; [| reflexivity].
  rewrite !prefix_empty. discriminate.
Qed.

Lemma replaceFirstPwd_unfold value replacement (c : ascii) (r : string) :
  Logging.replaceFirstPwd value replacement (String c r)
  = match match Logging.stripPrefix "PWD=" (String c r) with
          | Some t => value t
          | None => None
          end with
    | Some rest => replacement ++ rest
    | None => String c (Logging.replaceFirstPwd value replacement r)
    end.
Proof. reflexivity. Qed.

(** The first [PWD=] of a text is the one that is replaced. *)
Lemma replaceFirstPwd_first value replacement (before t rest : string) :
  includes before "PWD=" = false ->
  value t = Some rest ->
  Logging.replaceFirstPwd value replacement (before ++ "PWD=" ++ t)
  = before ++ replacement ++ rest.
Proof.
  intros Hb Hv. induction before as [|c b IH].
  - change ("" ++ "PWD=" ++ t) with (String "P" ("WD=" ++ t)).
    rewrite replaceFirstPwd_unfold.
    change (String "P" ("WD=" ++ t)) with ("PWD=" ++ t).
    now rewrite stripPrefix_append, Hv.
  - cbn [includes] in Hb. apply orb_false_iff in Hb as [Hp Hrest].
    change (String c b ++ "PWD=" ++ t) with (String c (b ++ "PWD=" ++ t)).
    rewrite replaceFirstPwd_unfold.
    change (String c (b ++ "PWD=" ++ t)) with (String c b ++ "PWD=" ++ t).
    rewrite (stripPrefix_none "PWD=" _ (prefix_pwd_straddle (String c b) t
                                          ltac:(discriminate) Hp)).
    now rewrite (IH Hrest).
Qed.

Lemma lazyUntilSemicolon_plain (a t : string) :
  Text.plainValue a = true -> Logging.lazyUntilSemicolon (a ++ String ";" t) = Some t.
Proof.
  unfold Text.plainValue. induction a as [|c a IH]; simpl.
  - intros _. reflexivity.
  - intros H. apply andb_true_iff in H as [Hc Ha].
    apply andb_true_iff in Hc as [H1 H2].
    destruct (Ascii.eqb c ";"); [discriminate|].
    destruct (Logging.isLineTerminator c); [discriminate|].
    now apply IH.
Qed.

Lemma fromSemicolon_skip (a t : string) :
  Text.noChar ";" a = true -> Logging.fromSemicolon (a ++ String ";" t) = String ";" t.
Proof.
  unfold Text.noChar. induction a as [|c a IH]; simpl.
  - intros _. reflexivity.
  - intros H. apply andb_true_iff in H as [Hc Ha].
    destruct (Ascii.eqb c ";"); [discriminate|].
    now apply IH.
Qed.

(** A tail that is empty or starts with a semicolon, followed by a
    semicolon. *)
Lemma shown_then_semicolon (shown : string) :
  shown = "" \/ startsWith shown ";" = true ->
  exists t, shown ++ ";" = String ";" t /\ forall x, shown ++ String ";" x = String ";" (t ++ x)
            /\ (shown ++ ";") ++ x = String ";" (t ++ x).
Proof.
  intros [->|H].
  - exists "". repeat split.
  - destruct (startsWith_char shown ";" H) as [b ->].
    exists (b ++ ";"). repeat split; simpl; now rewrite ?append_assoc.
Qed.

(** X9.  The line that [init] of the native-only and of the dual-driver
    adapter prints with the connection string.  Let a user and a password
    be given, let [PWD=] not occur in the connection string before the
    password, and let the password be [hidden] followed by [shown], where
    [hidden] has no semicolon and no line break and [shown] is empty or
    starts with a semicolon.  Then the line shows the connection string
    of the password [*****] followed by [shown]: a password without a
    semicolon is hidden whole, and of a password with a semicolon
    everything from the first semicolon on is printed. *)
Theorem X9_template_line_hides_password_up_to_semicolon :
  forall (driverVersion : string) (ci : ConnectionInfo.t) (hidden shown : string),
    truthyStr (ConnectionInfo.user ci) = true ->
    ConnectionInfo.password ci = Some (hidden ++ shown) ->
    hidden ++ shown <> "" ->
    Text.plainValue hidden = true ->
    shown = "" \/ startsWith shown ";" = true ->
    includes (Variation.beforePassword driverVersion ci) "PWD=" = false ->
    Logging.connectionStringTemplateLine
      (NativePath.prepareConnectionString driverVersion ci)
    = "[DEBUG] Connection string template: "
      ++ NativePath.prepareConnectionString driverVersion
           (Variation.withPassword ci ("*****" ++ shown)).
Proof.
  intros dv ci hidden shown Hu Hp Hne Hplain Hshown Hbefore.
  unfold Logging.connectionStringTemplateLine, Logging.maskPwdLazy. f_equal.
  rewrite !prepareConnectionString_parts.
  change (ConnectionInfo.user (Variation.withPassword ci ("*****" ++ shown)))
    with (ConnectionInfo.user ci).
  change (ConnectionInfo.password (Variation.withPassword ci ("*****" ++ shown)))
    with (Some ("*****" ++ shown)).
  change (Variation.beforePassword dv (Variation.withPassword ci ("*****" ++ shown)))
    with (Variation.beforePassword dv ci).
  change (Variation.afterCredentials (Variation.withPassword ci ("*****" ++ shown)))
    with (Variation.afterCredentials ci).
  rewrite Hp, Hu.
  assert (Ht : truthyStr (Some (hidden ++ shown)) = true).
  { simpl. destruct (String.eqb_spec (hidden ++ shown) ""); [contradiction | reflexivity]. }
  rewrite Ht. cbn [andb truthyStr NativePath.interp negb].
  change (("*****" ++ shown =? "")%string) with false. cbn [negb].
  set (before := Variation.beforePassword dv ci) in *.
  set (after := Variation.afterCredentials ci).
  destruct (shown_then_semicolon shown Hshown) as (t & _ & Ht2).
  rewrite !append_assoc.
  change (";" ++ after) with (String ";" after).
  rewrite (proj1 (Ht2 after)).
  rewrite (replaceFirstPwd_first Logging.lazyUntilSemicolon "PWD=*****;" before
             (hidden ++ String ";" (t ++ after)) (t ++ after) Hbefore).
  - reflexivity.
  - now apply lazyUntilSemicolon_plain.
Qed.

(** X9 on the password [ab;cd]: the line shows [PWD=*****;cd;]. *)
Lemma X9_template_line_hides_password_up_to_semicolon_witness :
  Logging.connectionStringTemplateLine
    (NativePath.prepareConnectionString "17" MoreSamples.semicolonPassword)
  = "[DEBUG] Connection string template: "
    ++ "Driver={ODBC Driver 17 for SQL Server};Server=HOST;Database=master;UID=sa;PWD=*****;cd;".
Proof.
  apply (X9_template_line_hides_password_up_to_semicolon "17"
           MoreSamples.semicolonPassword "ab" ";cd");
    solve [reflexivity | discriminate | now right].
Defined.

Lemma cjs_directConnectionString_login (ci : ConnectionInfo.t) (pw : string) :
  truthyStr (ConnectionInfo.user ci) = true ->
  ConnectionInfo.password ci = Some pw ->
  pw <> "" ->
  Cjs.directConnectionString (Cjs.constructor ci)
  = Variation.beforePassword "17" ci ++ "PWD=" ++ pw ++ ";".
Proof.
  intros Hu Hp Hne. unfold Cjs.constructor; simpl. rewrite Hu, Hp.
  assert (Ht : truthyStr (Some pw) = true).
  { simpl. destruct (String.eqb_spec pw ""); [contradiction | reflexivity]. }
  rewrite Ht. cbn [andb NativePath.interp]. unfold Variation.beforePassword.
  simpl. repeat (rewrite ?append_assoc; simpl). reflexivity.
Qed.

Lemma greedyNonSemicolons_value (hidden t : string) :
  hidden <> "" ->
  Text.noChar ";" hidden = true ->
  Logging.greedyNonSemicolons (hidden ++ String ";" t) = Some (String ";" t).
Proof.
  intros Hne H. destruct hidden as [|c h]; [now elim Hne|].
  unfold Text.noChar in H. simpl in H. apply andb_true_iff in H as [Hc Hh].
  cbn [append Logging.greedyNonSemicolons].
  destruct (Ascii.eqb c ";"); [discriminate|].
  now rewrite (fromSemicolon_skip h t Hh).
Qed.

(** X10.  The line that [connectWithMsnodesqlv8] of the CommonJS adapter
    prints with the direct connection string.  Let a user and a password
    be given, let [PWD=] not occur in the connection string before the
    password, and let the password be [hidden] followed by [shown], where
    [hidden] is not empty and has no semicolon and [shown] is empty or
    starts with a semicolon.  Then the line shows the direct connection
    string of the password [*****] followed by [shown]. *)
Theorem X10_direct_line_hides_password_up_to_semicolon :
  forall (ci : ConnectionInfo.t) (hidden shown : string),
    truthyStr (ConnectionInfo.user ci) = true ->
    ConnectionInfo.password ci = Some (hidden ++ shown) ->
    hidden <> "" ->
    Text.noChar ";" hidden = true ->
    shown = "" \/ startsWith shown ";" = true ->
    includes (Variation.beforePassword "17" ci) "PWD=" = false ->
    Logging.directConnectionStringLine (Cjs.directConnectionString (Cjs.constructor ci))
    = "[DEBUG] Direct connection string (sanitized): "
      ++ Cjs.directConnectionString
           (Cjs.constructor (Variation.withPassword ci ("*****" ++ shown))).
Proof.
  intros ci hidden shown Hu Hp Hne Hno Hshown Hbefore.
  unfold Logging.directConnectionStringLine, Logging.maskPwdGreedy. f_equal.
  assert (Hne2 : hidden ++ shown <> "") by (destruct hidden; [now elim Hne | discriminate]).
  rewrite (cjs_directConnectionString_login ci (hidden ++ shown) Hu Hp Hne2).
  rewrite (cjs_directConnectionString_login (Variation.withPassword ci ("*****" ++ shown))
             ("*****" ++ shown) Hu eq_refl ltac:(discriminate)).
  change (Variation.beforePassword "17" (Variation.withPassword ci ("*****" ++ shown)))
    with (Variation.beforePassword "17" ci).
  set (before := Variation.beforePassword "17" ci) in *.
  destruct (shown_then_semicolon shown Hshown) as (t & Ht & _).
  rewrite !append_assoc. rewrite Ht.
  rewrite (replaceFirstPwd_first Logging.greedyNonSemicolons "PWD=*****" before
             (hidden ++ String ";" t) (String ";" t) Hbefore).
  - reflexivity.
  - now apply greedyNonSemicolons_value.
Qed.

(** X10 on the password [ab;cd]: the line shows [PWD=*****;cd;]. *)
Lemma X10_direct_line_hides_password_up_to_semicolon_witness :
  Logging.directConnectionStringLine
    (Cjs.directConnectionString (Cjs.constructor MoreSamples.semicolonPassword))
  = "[DEBUG] Direct connection string (sanitized): "
    ++ "Driver={ODBC Driver 17 for SQL Server};Server=HOST;Database=master;UID=sa;PWD=*****;cd;".
Proof.
  apply (X10_direct_line_hides_password_up_to_semicolon
           MoreSamples.semicolonPassword "ab" ";cd");
    solve [reflexivity | discriminate | now right].
Defined.

(** ** Errors of the query methods *)

(** X11.  [all], [run] and [exec] of the dual-driver adapter.  On the
    pool without an open pool the method is rejected with
    [Database not initialized] and calls no library.  In every other
    state it makes exactly one call, and if it is rejected the message
    starts with [SQL Server query error: ] for [all] and [run] and with
    [SQL Server batch error: ] for [exec]. *)
Theorem X11_query_methods_call_once_and_wrap_errors :
  forall (d : Drivers) (this : Dual.SqlServerAdapter) (query : string)
         (params : list jsval) (tr : list event),
    (Dual.useNativeDriver this = false /\ Dual.pool this = None ->
     Dual.all d this query params tr = (tr, Rejected "Database not initialized")
     /\ Dual.run d this query params tr = (tr, Rejected "Database not initialized")
     /\ Dual.exec d this query tr = (tr, Rejected "Database not initialized"))
    /\ (~ (Dual.useNativeDriver this = false /\ Dual.pool this = None) ->
        (exists e, fst (Dual.all d this query params tr) = (tr ++ [e])%list)
        /\ (exists e, fst (Dual.run d this query params tr) = (tr ++ [e])%list)
        /\ (exists e, fst (Dual.exec d this query tr) = (tr ++ [e])%list)
        /\ (forall m, snd (Dual.all d this query params tr) = Rejected m ->
                      startsWith m "SQL Server query error: " = true)
        /\ (forall m, snd (Dual.run d this query params tr) = Rejected m ->
                      startsWith m "SQL Server query error: " = true)
        /\ (forall m, snd (Dual.exec d this query tr) = Rejected m ->
                      startsWith m "SQL Server batch error: " = true)).
Proof.
  intros d this query params tr.
  assert (P : forall q, NativePath.prepareQuery q params = (q, params))
    by (intros q; now destruct params).
  split.
  - intros [Hn Hp].
    unfold Dual.all, Dual.run, Dual.exec, Dual.allWithMssql, Dual.runWithMssql,
      Dual.execWithMssql.
    now rewrite Hn, Hp.
  - intros Hinit.
    assert (Hcase : Dual.useNativeDriver this = true
                    \/ (Dual.useNativeDriver this = false /\ exists p, Dual.pool this = Some p)).
    { destruct (Dual.useNativeDriver this); [now left | right].
      split; [reflexivity|].
      destruct (Dual.pool this) as [p|]; [now exists p | now elim Hinit]. }
    unfold Dual.all, Dual.run, Dual.exec, Dual.allWithMssql, Dual.runWithMssql,
      Dual.execWithMssql, Dual.allWithNativeDriver, Dual.runWithNativeDriver,
      Dual.execWithNativeDriver, NativePath.all, NativePath.run, NativePath.exec.
    destruct Hcase as [Hn|[Hn [p Hp]]]; rewrite Hn; rewrite ?Hp, ?P;
      unfold startsWith, bind, ret, nativeQuery, poolQuery, poolBatch;
      destruct (NativePath.isInsert query); rewrite ?P; simpl;
      repeat match goal with
             | |- _ /\ _ => split
             | |- exists e, (tr ++ [?x])%list = (tr ++ [e])%list => now exists x
             | |- forall m, _ -> _ => intros m
             | |- context [match ?x with _ => _ end] => destruct x
             | |- Rejected _ = Rejected _ -> _ => intros [= <-]
             | |- Resolved _ = Rejected _ -> _ => discriminate
             | |- prefix _ _ = true => solve [cbn; apply prefix_empty]
             end.
Qed.

(** X11 on an adapter that was never initialized and on one with an open
    pool whose query fails. *)
Lemma X11_query_methods_call_once_and_wrap_errors_witness :
  Dual.all Samples.poolUp (Dual.constructor false Samples.hostOnly) "SELECT 1" [] []
  = ([], Rejected "Database not initialized")
  /\ startsWith "SQL Server query error: ECONNCLOSED" "SQL Server query error: " = true.
Proof.
  split.
  - apply (X11_query_methods_call_once_and_wrap_errors Samples.poolUp
             (Dual.constructor false Samples.hostOnly) "SELECT 1" [] []).
    now split.
  - destruct (X11_query_methods_call_once_and_wrap_errors Samples.poolDown
                (Dual.setPool (Dual.constructor false Samples.hostOnly) (Some 1))
                "SELECT 1" [] []) as [_ H].
    apply H; [intros [_ E]; discriminate E | reflexivity].
Defined.

(** ** init of the TypeScript adapters *)

(** [init] of the dual-driver adapter makes exactly one call, to
    the library of its backend: the probe [SELECT 1 AS TestConnection]
    with the connection string on msnodesqlv8, a connect with the pool
    configuration on mssql.  There is no second attempt on the other
    library.  If the call fails [init] is rejected with the library's
    message after [Failed to connect to SQL Server: ] and the adapter is
    left as it was; if it succeeds [init] resolves, and on mssql the
    adapter then holds the pool the library returned.  On msnodesqlv8
    [init] never changes the adapter.  [init] of the native-only adapter
    is the probe alone. *)
Lemma init_is_one_attempt :
  forall (d : Drivers) (tr : list event),
    (forall this : Dual.SqlServerAdapter,
        Dual.useNativeDriver this = true ->
        let probe := NativeQuery (Dual.connectionString this) "SELECT 1 AS TestConnection" None in
        Dual.init d this tr
        = ((tr ++ [probe])%list,
           (this,
            match native_query d tr (Dual.connectionString this)
                    "SELECT 1 AS TestConnection" None with
            | inr _ => Resolved tt
            | inl m => Rejected ("Failed to connect to SQL Server: " ++ m)
            end)))
    /\ (forall this : Dual.SqlServerAdapter,
           Dual.useNativeDriver this = false ->
           Dual.init d this tr
           = ((tr ++ [SqlConnect (Dual.config this)])%list,
              match sql_connect d tr (Dual.config this) with
              | inr p => (Dual.setPool this (Some p), Resolved tt)
              | inl m => (this, Rejected ("Failed to connect to SQL Server: " ++ m))
              end))
    /\ (forall this : NativeOnly.SqlServerAdapter,
           NativeOnly.init d this tr
           = ((tr ++ [NativeQuery (NativeOnly.connectionString this)
                        "SELECT 1 AS TestConnection" None])%list,
              match native_query d tr (NativeOnly.connectionString this)
                      "SELECT 1 AS TestConnection" None with
              | inr _ => Resolved tt
              | inl m => Rejected ("Failed to connect to SQL Server: " ++ m)
              end)).
Proof.
  intros d tr. repeat match goal with |- _ /\ _ => split end.
  - intros this Hn probe. unfold Dual.init. rewrite Hn.
    unfold NativePath.testConnection, bind, ret, nativeQuery. simpl.
    now destruct (native_query d tr _ _ _).
  - intros this Hn. unfold Dual.init. rewrite Hn.
    unfold bind, ret, sqlConnect. simpl.
    now destruct (sql_connect d tr _).
  - intros this. unfold NativeOnly.init, NativePath.testConnection, bind, ret, nativeQuery.
    simpl. now destruct (native_query d tr _ _ _).
Qed.

(** X12.  Queries on an adapter that was never initialized.  On the pool
    (dual-driver adapter) and in the CommonJS adapter they are rejected
    with [Database not initialized] without a call.  On msnodesqlv8 (the
    dual-driver adapter and the native-only adapter) no [init] is needed:
    [all] on a new adapter sends its query to the driver, and it does the
    same after an [init], whether that [init] resolved or was rejected. *)
Theorem X12_queries_without_init :
  forall (d : Drivers) (msnodesqlv8 : bool) (ci : ConnectionInfo.t) (query : string)
         (params : list jsval) (tr tr0 : list event),
    let this := Dual.constructor msnodesqlv8 ci in
    (Dual.chooseNativeDriver msnodesqlv8 ci = false ->
     Dual.all d this query params tr = (tr, Rejected "Database not initialized")
     /\ Dual.run d this query params tr = (tr, Rejected "Database not initialized")
     /\ Dual.exec d this query tr = (tr, Rejected "Database not initialized"))
    /\ (Dual.chooseNativeDriver msnodesqlv8 ci = true ->
        fst (Dual.all d this query params tr)
        = (tr ++ [NativeQuery
                    (NativePath.prepareConnectionString
                       (NativePath.driverVersionOrDefault ci) ci)
                    query (Some params)])%list
        /\ Dual.all d (fst (snd (Dual.init d this tr0))) query params tr
           = Dual.all d this query params tr)
    /\ Cjs.all d (Cjs.constructor ci) query params tr
       = (tr, Rejected "Database not initialized")
    /\ fst (NativeOnly.all d (NativeOnly.constructor ci) query params tr)
       = (tr ++ [NativeQuery
                   (NativePath.prepareConnectionString
                      (NativePath.driverVersionOrDefault ci) ci)
                   query (Some params)])%list.
Proof.
  intros d msn ci query params tr tr0 this.
  assert (P : NativePath.prepareQuery query params = (query, params))
    by (now destruct params).
  repeat match goal with |- _ /\ _ => split end.
  - intros H. subst this.
    unfold Dual.all, Dual.run, Dual.exec, Dual.allWithMssql, Dual.runWithMssql,
      Dual.execWithMssql, Dual.constructor. simpl. rewrite H. repeat split.
  - intros H. subst this. split.
    + unfold Dual.all, Dual.allWithNativeDriver, NativePath.all, Dual.constructor. simpl.
      now rewrite H, P.
    + destruct (init_is_one_attempt d tr0) as (Hn & _).
      now rewrite (Hn (Dual.constructor msn ci) H).
  - reflexivity.
  - unfold NativeOnly.all, NativePath.all, NativeOnly.constructor. simpl. now rewrite P.
Qed.

(** X12 on new adapters: the pool rejects, msnodesqlv8 is called. *)
Lemma X12_queries_without_init_witness :
  Dual.all Samples.poolUp (Dual.constructor false Samples.hostOnly) "SELECT 1" [] []
  = ([], Rejected "Database not initialized")
  /\ fst (Dual.all Samples.poolUp (Dual.constructor true Samples.hostOnly) "SELECT 1" [] [])
     = [NativeQuery
          "Driver={ODBC Driver 17 for SQL Server};Server=HOST;Database=master;Trusted_Connection=Yes;"
          "SELECT 1" (Some [])].
Proof.
  destruct (X12_queries_without_init Samples.poolUp false Samples.hostOnly "SELECT 1" [] [] [])
    as (Hpool & _).
  destruct (X12_queries_without_init Samples.poolUp true Samples.hostOnly "SELECT 1" [] [] [])
    as (_ & Hnative & _).
  split.
  - exact (proj1 (Hpool eq_refl)).
  - exact (proj1 (Hnative eq_refl)).
Defined.

(** ** init followed by a query, and close followed by close *)

(** X13.  After an [init] that resolved, [all] uses what [init] set up.
    Dual-driver adapter on mssql: [all] makes one request on the pool that
    the connect returned, with the inputs bound from the parameters and
    the rewritten query.  CommonJS adapter, in any state before [init]:
    if the adapter had already fallen back to the direct connection, [all]
    sends the query as it is to msnodesqlv8 with the direct connection
    string, whether or not this [init] opened a pool; otherwise, if the
    connect succeeded [all] makes one request on the pool that the connect
    returned, and if it failed, so that [init] resolved through the probe,
    [all] sends the query as it is to msnodesqlv8. *)
Theorem X13_all_after_init :
  forall (d : Drivers) (query : string) (params : list jsval) (tr tr2 : list event),
    (forall this : Dual.SqlServerAdapter,
        Dual.useNativeDriver this = false ->
        snd (snd (Dual.init d this tr)) = Resolved tt ->
        exists p,
          sql_connect d tr (Dual.config this) = inr p
          /\ fst (Dual.all d (fst (snd (Dual.init d this tr))) query params tr2)
             = (tr2 ++ [PoolQuery p (PoolPath.bindParams params) []
                          (PoolPath.namedQuery query)])%list)
    /\ (forall this : Cjs.SqlServerAdapter,
           snd (snd (Cjs.init d this tr)) = Resolved tt ->
           fst (Cjs.all d (fst (snd (Cjs.init d this tr))) query params tr2)
           = (tr2 ++ [if Cjs.usingDirectConnection this
                      then NativeQuery (Cjs.directConnectionString this) query None
                      else match sql_connect d tr (Some (Cjs.config this)) with
                           | inr p => PoolQuery p (PoolPath.bindParams params) []
                                        (PoolPath.namedQuery query)
                           | inl _ =>
                               NativeQuery (Cjs.directConnectionString this) query None
                           end])%list).
Proof.
  intros d query params tr tr2. split.
  - intros this Hn Hres.
    destruct (init_is_one_attempt d tr) as (_ & Hp & _).
    rewrite (Hp this Hn) in *. simpl in *.
    destruct (sql_connect d tr (Dual.config this)) as [m|p]; [discriminate|].
    exists p. split; [reflexivity|].
    unfold Dual.all, Dual.allWithMssql. simpl. now rewrite Hn.
  - intros this.
    unfold Cjs.init, Cjs.connectWithMssql, Cjs.connectWithMsnodesqlv8,
      bind, ret, sqlConnect, nativeQuery.
    destruct (sql_connect d tr (Some (Cjs.config this))) as [m|p]; simpl.
    + destruct (native_query d _ _ _ _); simpl; [discriminate|].
      intros _. unfold Cjs.all, Cjs.allDirect, bind, ret, nativeQuery. simpl.
      rewrite andb_false_r. now destruct (Cjs.usingDirectConnection this).
    + intros _. unfold Cjs.all, Cjs.allDirect, bind, ret, nativeQuery, poolQuery. simpl.
      now destruct (Cjs.usingDirectConnection this).
Qed.

(** X13 on the dual-driver adapter with a pool that opens, on a new
    CommonJS adapter with a pool that does not, and on a CommonJS adapter
    that fell back once and whose second [init] opens a pool. *)
Lemma X13_all_after_init_witness :
  (exists p,
      sql_connect Samples.poolUp [] (Dual.config (Dual.constructor false Samples.hostOnly))
      = inr p
      /\ fst (Dual.all Samples.poolUp
                (fst (snd (Dual.init Samples.poolUp
                             (Dual.constructor false Samples.hostOnly) [])))
                "SELECT ? AS V" [JNumber 42] [])
         = [PoolQuery p [("param0", JNumber 42)] [] "SELECT @param7 AS V"])
  /\ fst (Cjs.all Samples.poolDown
            (fst (snd (Cjs.init Samples.poolDown (Cjs.constructor Samples.hostOnly) [])))
            "SELECT 1" [] [])
     = [NativeQuery
          "Driver={ODBC Driver 17 for SQL Server};Server=HOST;Database=master;Trusted_Connection=Yes;"
          "SELECT 1" None]
  /\ (let fellBack :=
        fst (snd (Cjs.init Samples.poolDown (Cjs.constructor Samples.hostOnly) [])) in
      let again := fst (snd (Cjs.init Samples.poolUp fellBack [])) in
      Cjs.pool again = Some 1
      /\ fst (Cjs.all Samples.poolUp again "SELECT 1" [] [])
         = [NativeQuery
              "Driver={ODBC Driver 17 for SQL Server};Server=HOST;Database=master;Trusted_Connection=Yes;"
              "SELECT 1" None]).
Proof.
  destruct (X13_all_after_init Samples.poolUp "SELECT ? AS V" [JNumber 42] [] [])
    as (Hdual & _).
  destruct (X13_all_after_init Samples.poolDown "SELECT 1" [] [] []) as (_ & Hcjs).
  destruct (X13_all_after_init Samples.poolUp "SELECT 1" [] [] []) as (_ & Hagain).
  cbv zeta. repeat match goal with |- _ /\ _ => split end.
  - apply (Hdual (Dual.constructor false Samples.hostOnly)); reflexivity.
  - apply (Hcjs (Cjs.constructor Samples.hostOnly)). reflexivity.
  - reflexivity.
  - apply (Hagain (fst (snd (Cjs.init Samples.poolDown
                               (Cjs.constructor Samples.hostOnly) [])))).
    reflexivity.
Defined.

(** X14.  [close] of the dual-driver adapter on mssql and of the CommonJS
    adapter.  With an open pool it makes one call, to close that pool.  If
    the library reports an error [close] is rejected with the library's
    message as it is and the adapter keeps its pool.  Once a [close] has
    resolved, a second [close] resolves too, calls no library and leaves
    the adapter as it is. *)
Theorem X14_close_then_close :
  forall (d : Drivers) (tr tr2 : list event),
    (forall (this : Dual.SqlServerAdapter) (p : poolHandle),
        Dual.useNativeDriver this = false ->
        Dual.pool this = Some p ->
        fst (Dual.close d this tr) = (tr ++ [PoolClose p])%list
        /\ (forall m, pool_close d tr p = Some m ->
                      snd (Dual.close d this tr) = (this, Rejected m)))
    /\ (forall this : Dual.SqlServerAdapter,
           snd (snd (Dual.close d this tr)) = Resolved tt ->
           let this' := fst (snd (Dual.close d this tr)) in
           Dual.close d this' tr2 = (tr2, (this', Resolved tt)))
    /\ (forall (this : Cjs.SqlServerAdapter) (p : poolHandle),
           Cjs.pool this = Some p ->
           fst (Cjs.close d this tr) = (tr ++ [PoolClose p])%list
           /\ (forall m, pool_close d tr p = Some m ->
                         snd (Cjs.close d this tr) = (this, Rejected m)))
    /\ (forall this : Cjs.SqlServerAdapter,
           snd (snd (Cjs.close d this tr)) = Resolved tt ->
           let this' := fst (snd (Cjs.close d this tr)) in
           Cjs.close d this' tr2 = (tr2, (this', Resolved tt))).
Proof.
  intros d tr tr2. repeat match goal with |- _ /\ _ => split end.
  - intros this p Hn Hp. unfold Dual.close. rewrite Hn, Hp.
    unfold bind, ret, poolClose. simpl. split; [reflexivity|].
    intros m Hm. now rewrite Hm.
  - intros this. unfold Dual.close.
    destruct (Dual.useNativeDriver this) eqn:Hn; simpl.
    + intros _. now rewrite Hn.
    + destruct (Dual.pool this) as [p|] eqn:Hp; unfold bind, ret, poolClose; simpl.
      * destruct (pool_close d tr p); simpl; [discriminate|].
        intros _. now rewrite Hn.
      * intros _. now rewrite Hn, Hp.
  - intros this p Hp. unfold Cjs.close. rewrite Hp.
    unfold bind, ret, poolClose. simpl. split; [reflexivity|].
    intros m Hm. now rewrite Hm.
  - intros this. unfold Cjs.close.
    destruct (Cjs.pool this) as [p|] eqn:Hp; unfold bind, ret, poolClose; simpl.
    + destruct (pool_close d tr p); simpl; [discriminate|]. reflexivity.
    + intros _. now rewrite Hp.
Qed.

(** X14 on adapters that opened a pool and closed it. *)
Lemma X14_close_then_close_witness :
  let dual :=
    fst (snd (Dual.init Samples.poolUp (Dual.constructor false Samples.hostOnly) [])) in
  let cjs := fst (snd (Cjs.init Samples.poolUp (Cjs.constructor Samples.hostOnly) [])) in
  fst (Dual.close Samples.poolUp dual []) = [PoolClose 1]
  /\ snd (snd (Dual.close Samples.poolUp (fst (snd (Dual.close Samples.poolUp dual []))) []))
     = Resolved tt
  /\ fst (Cjs.close Samples.poolUp cjs []) = [PoolClose 1]
  /\ fst (Cjs.close Samples.poolUp (fst (snd (Cjs.close Samples.poolUp cjs []))) []) = [].
Proof.
  destruct (X14_close_then_close Samples.poolUp [] []) as (H1 & H2 & H3 & H4).
  cbv zeta. repeat match goal with |- _ /\ _ => split end.
  - exact (proj1 (H1 (fst (snd (Dual.init Samples.poolUp
                                  (Dual.constructor false Samples.hostOnly) []))) 1
                    eq_refl eq_refl)).
  - rewrite (H2 (fst (snd (Dual.init Samples.poolUp
                             (Dual.constructor false Samples.hostOnly) []))) eq_refl).
    reflexivity.
  - exact (proj1 (H3 (fst (snd (Cjs.init Samples.poolUp
                                  (Cjs.constructor Samples.hostOnly) []))) 1 eq_refl)).
  - rewrite (H4 (fst (snd (Cjs.init Samples.poolUp (Cjs.constructor Samples.hostOnly) [])))
               eq_refl).
    reflexivity.
Defined.

(** ** getMetadata *)

Lemma step_keeps_names (d : Drivers) (o : Lifetime.op) (tr : list event)
    (this : Dual.SqlServerAdapter) :
  Dual.server (snd (Lifetime.step d (tr, this) o)) = Dual.server this
  /\ Dual.database (snd (Lifetime.step d (tr, this) o)) = Dual.database this.
Proof.
  destruct o as [|query params|query params|query|]; simpl; try (now split).
  - unfold Dual.init.
    destruct (Dual.useNativeDriver this);
      unfold NativePath.testConnection, bind, ret, nativeQuery, sqlConnect; simpl.
    + now destruct (native_query d tr _ _ _).
    + now destruct (sql_connect d tr _).
  - unfold Dual.close.
    destruct (Dual.useNativeDriver this); simpl; [now split|].
    destruct (Dual.pool this); unfold bind, ret, poolClose; simpl; [| now split].
    now destruct (pool_close d tr _).
Qed.

Lemma steps_keep_names (d : Drivers) (ops : list Lifetime.op) :
  forall (tr : list event) (this : Dual.SqlServerAdapter),
    Dual.server (snd (Lifetime.steps d ops (tr, this))) = Dual.server this
    /\ Dual.database (snd (Lifetime.steps d ops (tr, this))) = Dual.database this.
Proof.
  induction ops as [|o ops IH]; intros tr this; [now split|].
  change (Lifetime.steps d (o :: ops) (tr, this))
    with (Lifetime.steps d ops (Lifetime.step d (tr, this) o)).
  destruct (step_keeps_names d o tr this) as [Hs Hd].
  destruct (Lifetime.step d (tr, this) o) as [tr1 this1].
  destruct (IH tr1 this1) as [Hs2 Hd2]. simpl in Hs, Hd.
  now rewrite Hs2, Hd2, Hs, Hd.
Qed.

(** X15.  [getMetadata] of the dual-driver adapter returns, after any
    sequence of [init], [all], [run], [exec] and [close], the name
    [SQL Server], the type [sqlserver] and the server and database as
    they were given to the constructor: the server string as written,
    with its instance, not the parsed server name.  The native-only
    adapter returns the same for the same connection parameters. *)
Theorem X15_metadata_is_what_the_constructor_was_given :
  forall (d : Drivers) (ops : list Lifetime.op) (msnodesqlv8 : bool)
         (ci : ConnectionInfo.t) (tr : list event),
    Metadata.ofDual (snd (Lifetime.steps d ops (tr, Dual.constructor msnodesqlv8 ci)))
    = {| Metadata.name := "SQL Server";
         Metadata.type := "sqlserver";
         Metadata.server := ConnectionInfo.server ci;
         Metadata.database := ConnectionInfo.database ci;
         Metadata.connectionMethod := None |}
    /\ Metadata.ofNativeOnly (NativeOnly.constructor ci)
       = Metadata.ofDual (snd (Lifetime.steps d ops (tr, Dual.constructor msnodesqlv8 ci))).
Proof.
  intros d ops msn ci tr.
  destruct (steps_keep_names d ops tr (Dual.constructor msn ci)) as [Hs Hd].
  unfold Metadata.ofDual, Metadata.ofNativeOnly. rewrite Hs, Hd. now split.
Qed.

Lemma trace_grows (tr : list event) (e : event) : tr <> (tr ++ [e])%list.
Proof.
  intros E. apply (f_equal (@List.length event)) in E.
  rewrite length_app in E. simpl in E. lia.
Qed.

(** X16.  [getMetadata] of the CommonJS adapter.  The server and the
    database are the ones given to the constructor.  [connectionMethod]
    is [direct msnodesqlv8] exactly when the direct flag is set, and
    [mssql pool] otherwise, so also on a new adapter and after [close],
    when nothing is connected.  Whenever [all] calls a library, the call
    goes to msnodesqlv8 exactly when [connectionMethod] is
    [direct msnodesqlv8]. *)
Theorem X16_connection_method_matches_dispatch :
  forall (d : Drivers) (this : Cjs.SqlServerAdapter) (ci : ConnectionInfo.t)
         (query : string) (params : list jsval) (tr : list event),
    Metadata.server (Metadata.ofCjs (Cjs.constructor ci)) = ConnectionInfo.server ci
    /\ Metadata.database (Metadata.ofCjs (Cjs.constructor ci)) = ConnectionInfo.database ci
    /\ Metadata.connectionMethod (Metadata.ofCjs (Cjs.constructor ci)) = Some "mssql pool"
    /\ (Metadata.connectionMethod (Metadata.ofCjs this) = Some "direct msnodesqlv8"
        <-> Cjs.usingDirectConnection this = true)
    /\ (Metadata.connectionMethod (Metadata.ofCjs this) = Some "mssql pool"
        <-> Cjs.usingDirectConnection this = false)
    /\ (forall e,
           fst (Cjs.all d this query params tr) = (tr ++ [e])%list ->
           (Lifetime.isNativeEvent e = true
            <-> Metadata.connectionMethod (Metadata.ofCjs this) = Some "direct msnodesqlv8")).
Proof.
  intros d this ci query params tr.
  assert (Hdirect : Metadata.connectionMethod (Metadata.ofCjs this)
                    = Some "direct msnodesqlv8"
                    <-> Cjs.usingDirectConnection this = true).
  { unfold Metadata.ofCjs, Cjs.connectionMethod; simpl.
    destruct (Cjs.usingDirectConnection this); split; intros E;
      first [reflexivity | discriminate E]. }
  split; [reflexivity | split; [reflexivity | split; [reflexivity |]]].
  split; [exact Hdirect | split].
  - unfold Metadata.ofCjs, Cjs.connectionMethod; simpl.
    destruct (Cjs.usingDirectConnection this); split; intros E;
      first [reflexivity | discriminate E].
  - intros e E. rewrite Hdirect. clear Hdirect. revert E.
    unfold Cjs.all, Cjs.allDirect.
    destruct (Cjs.usingDirectConnection this), (Cjs.pool this) as [p|];
      unfold bind, ret, nativeQuery, poolQuery; simpl; intros E;
      try (now elim (trace_grows tr e));
      apply app_inv_head in E; injection E as <-; simpl; split;
      solve [reflexivity | discriminate].
Qed.

(** ** More on what run and all resolve with *)

(** X17.  An INSERT whose identity is zero or negative.  On msnodesqlv8,
    when the last element of the result carries the number n as
    [LastID], [run] resolves with [lastID] n whatever its sign, and with
    [changes] 1 if n is positive and 0 if it is not.  On the pool, when
    the output parameter [insertedId] is the number n, [run] resolves
    with [lastID] n, and with [changes] 0 if n is not positive. *)
Theorem X17_identity_of_any_sign :
  forall (d : Drivers) (query : string) (params : list jsval) (tr : list event) (n : Z),
    NativePath.isInsert query = true ->
    (forall (cs : string) (rows : list row) (last : row),
        native_query d tr cs (query ++ "; SELECT SCOPE_IDENTITY() AS LastID") (Some params)
        = inr (RArray (rows ++ [last])) ->
        get last "LastID" = Some (CNumber (Num n)) ->
        snd (NativePath.run d cs query params tr)
        = Resolved {| changes := CNumber (Num (if (0 <? n)%Z then 1 else 0));
                      lastID := CNumber (Num n) |})
    /\ (forall (this : Dual.SqlServerAdapter) (p : poolHandle) (res : QueryResult),
           Dual.pool this = Some p ->
           pool_query d tr p (PoolPath.bindParams params) ["insertedId"]
             (PoolPath.namedQuery query ++ "; SELECT @insertedId = SCOPE_IDENTITY();")
           = inr res ->
           get (output res) "insertedId" = Some (CNumber (Num n)) ->
           exists c,
             snd (Dual.runWithMssql d this query params tr)
             = Resolved {| changes := c; lastID := CNumber (Num n) |}
             /\ ((n <= 0)%Z -> c = CNumber (Num 0))).
Proof.
  intros d query params tr n Hins. split.
  - intros cs rows last Hq Hget.
    rewrite (native_run_insert d cs query params tr Hins). simpl. rewrite Hq.
    unfold NativePath.lastIDOfResults. rewrite nth_error_last.
    unfold NativePath.prop. rewrite Hget. simpl.
    destruct (Z.eqb_spec n 0) as [->|N]; reflexivity.
  - intros this p res Hp Hq Hget.
    unfold Dual.runWithMssql. rewrite Hp, Hins.
    unfold bind, ret, poolQuery. simpl. rewrite Hq.
    unfold NativePath.prop. rewrite Hget. simpl.
    destruct (Z.eqb_spec n 0) as [->|N]; simpl.
    + eexists. split; [reflexivity|]. intros _.
      unfold Dual.getAffectedRows. now destruct (_ =? "INSERT").
    + eexists. split; [reflexivity|]. intros Hle.
      unfold Dual.getAffectedRows, gt0. simpl.
      assert (E : (0 <? n)%Z = false) by (apply Z.ltb_ge; lia).
      rewrite E. now rewrite andb_false_r.
Qed.

(** X17 on an identity of -3 returned by msnodesqlv8. *)
Lemma X17_identity_of_any_sign_witness :
  snd (NativePath.run
         (Samples.constantDrivers (inl "ECONNREFUSED")
            (inr (RArray [[("LastID", CNumber (Num (-3)))]])) (inl "ECONNCLOSED"))
         "Server=HOST;" "INSERT INTO t (a) VALUES (1)" [] [])
  = Resolved {| changes := CNumber (Num 0); lastID := CNumber (Num (-3)) |}.
Proof.
  destruct (X17_identity_of_any_sign
              (Samples.constantDrivers (inl "ECONNREFUSED")
                 (inr (RArray [[("LastID", CNumber (Num (-3)))]])) (inl "ECONNCLOSED"))
              "INSERT INTO t (a) VALUES (1)" [] [] (-3)%Z eq_refl) as [H _].
  apply (H "Server=HOST;" [] [("LastID", CNumber (Num (-3)))]); reflexivity.
Defined.

(** X18.  What [all] resolves with on msnodesqlv8, in the native-only and
    in the dual-driver adapter: the result of the driver when it is
    truthy, and the empty array when it is [undefined], [null], 0 or NaN.
    So the value is never falsy; a result that is a non-zero number or an
    object is passed on as it is. *)
Theorem X18_all_never_resolves_with_a_falsy_value :
  forall (d : Drivers) (cs query : string) (params : list jsval) (tr : list event)
         (v : results),
    snd (NativePath.all d cs query params tr) = Resolved v ->
    truthyResults v = true
    /\ exists res,
         native_query d tr cs query (Some params) = inr res
         /\ (truthyResults res = true -> v = res)
         /\ (truthyResults res = false -> v = RArray []).
Proof.
  intros d cs query params tr v.
  assert (P : NativePath.prepareQuery query params = (query, params))
    by (now destruct params).
  unfold NativePath.all. rewrite P. unfold bind, ret, nativeQuery. simpl.
  destruct (native_query d tr cs query (Some params)) as [m|res]; [discriminate|].
  intros [= <-].
  destruct (truthyResults res) eqn:E.
  - split; [exact E|]. exists res.
    split; [reflexivity | split; [reflexivity |]].
    intros E2. rewrite E in E2. discriminate E2.
  - split; [reflexivity|]. exists res.
    split; [reflexivity | split; [| reflexivity]].
    intros E2. rewrite E in E2. discriminate E2.
Qed.

(** X18 on a driver that answers with the number 3. *)
Lemma X18_all_never_resolves_with_a_falsy_value_witness :
  truthyResults (RNumber (Num 3)) = true
  /\ exists res,
       native_query Samples.nativeCount [] "Server=HOST;" "SELECT 1" (Some []) = inr res
       /\ (truthyResults res = true -> RNumber (Num 3) = res)
       /\ (truthyResults res = false -> RNumber (Num 3) = RArray []).
Proof.
  apply (X18_all_never_resolves_with_a_falsy_value Samples.nativeCount
           "Server=HOST;" "SELECT 1" [] [] (RNumber (Num 3))).
  reflexivity.
Defined.

(** ** Library calls over the lifetime of an adapter *)

Lemma step_calls_at_most_once (d : Drivers) (o : Lifetime.op) (tr : list event)
    (this : Dual.SqlServerAdapter) :
  exists new,
    fst (Lifetime.step d (tr, this) o) = (tr ++ new)%list /\ List.length new <= 1.
Proof.
  assert (Nil : exists new : list event, tr = (tr ++ new)%list /\ List.length new <= 1)
    by (exists []; split; [now rewrite app_nil_r | simpl; lia]).
  assert (One : forall e, exists new : list event,
               (tr ++ [e])%list = (tr ++ new)%list /\ List.length new <= 1)
    by (intros e; exists [e]; split; [reflexivity | simpl; lia]).
  destruct o as [|query params|query params|query|]; simpl.
  - unfold Dual.init.
    destruct (Dual.useNativeDriver this);
      unfold NativePath.testConnection, bind, ret, nativeQuery, sqlConnect; simpl;
      apply One.
  - unfold Dual.all, Dual.allWithNativeDriver, Dual.allWithMssql, NativePath.all.
    destruct (Dual.useNativeDriver this).
    + destruct (NativePath.prepareQuery query params).
      unfold bind, ret, nativeQuery; simpl. apply One.
    + destruct (Dual.pool this); unfold bind, ret, poolQuery; simpl;
        [apply One | apply Nil].
  - unfold Dual.run, Dual.runWithNativeDriver, Dual.runWithMssql, NativePath.run.
    destruct (Dual.useNativeDriver this).
    + destruct (NativePath.isInsert query);
        destruct (NativePath.prepareQuery _ params);
        unfold bind, ret, nativeQuery; simpl; apply One.
    + destruct (Dual.pool this); [| apply Nil].
      destruct (NativePath.isInsert query);
        unfold bind, ret, poolQuery; simpl; apply One.
  - unfold Dual.exec, Dual.execWithNativeDriver, Dual.execWithMssql, NativePath.exec.
    destruct (Dual.useNativeDriver this).
    + unfold bind, ret, nativeQuery; simpl. apply One.
    + destruct (Dual.pool this); unfold bind, ret, poolBatch; simpl;
        [apply One | apply Nil].
  - unfold Dual.close.
    destruct (Dual.useNativeDriver this); simpl; [apply Nil|].
    destruct (Dual.pool this); unfold bind, ret, poolClose; simpl;
      [apply One | apply Nil].
Qed.

(** X19.  The dual-driver adapter retries nothing and makes no call of its
    own: over any sequence of [init], [all], [run], [exec] and [close]
    the calls made before stay in the trace, and the number of calls
    added is at most the number of methods called. *)
Theorem X19_at_most_one_call_per_method :
  forall (d : Drivers) (ops : list Lifetime.op) (tr : list event)
         (this : Dual.SqlServerAdapter),
    exists new,
      fst (Lifetime.steps d ops (tr, this)) = (tr ++ new)%list
      /\ List.length new <= List.length ops.
Proof.
  intros d ops. induction ops as [|o ops IH]; intros tr this.
  - exists []. split; [simpl; now rewrite app_nil_r | simpl; lia].
  - change (Lifetime.steps d (o :: ops) (tr, this))
      with (Lifetime.steps d ops (Lifetime.step d (tr, this) o)).
    destruct (step_calls_at_most_once d o tr this) as (new1 & E1 & L1).
    destruct (Lifetime.step d (tr, this) o) as [tr1 this1]. simpl in E1.
    destruct (IH tr1 this1) as (new2 & E2 & L2).
    exists (new1 ++ new2)%list. split.
    + now rewrite E2, E1, app_assoc.
    + rewrite length_app. simpl. lia.
Qed.

(** ** Credentials *)

(** X20.  A user without a password, or a password without a user, is
    not used at all; an empty text counts as none.  The connection
    string for msnodesqlv8, the pool configuration of the dual-driver
    adapter, and the pool configuration and the direct connection string
    of the CommonJS adapter are then the ones built for connection
    parameters with neither user nor password: Windows authentication. *)
Theorem X20_partial_credentials_are_ignored :
  forall (driverVersion : string) (ci : ConnectionInfo.t),
    truthyStr (ConnectionInfo.user ci) && truthyStr (ConnectionInfo.password ci) = false ->
    NativePath.prepareConnectionString driverVersion ci
    = NativePath.prepareConnectionString driverVersion (Variation.withoutCredentials ci)
    /\ Dual.poolConfig ci = Dual.poolConfig (Variation.withoutCredentials ci)
    /\ Cjs.config (Cjs.constructor ci)
       = Cjs.config (Cjs.constructor (Variation.withoutCredentials ci))
    /\ Cjs.directConnectionString (Cjs.constructor ci)
       = Cjs.directConnectionString (Cjs.constructor (Variation.withoutCredentials ci))
    /\ get (PoolConfig.options (Dual.poolConfig ci)) "trustedConnection" = Some (JBool true)
    /\ PoolConfig.user (Dual.poolConfig ci) = None
    /\ PoolConfig.password (Dual.poolConfig ci) = None.
Proof.
  intros dv ci H.
  repeat match goal with |- _ /\ _ => split end.
  - rewrite !prepareConnectionString_parts.
    change (Variation.afterCredentials (Variation.withoutCredentials ci))
      with (Variation.afterCredentials ci).
    now rewrite H.
  - unfold Dual.poolConfig, PoolPath.poolOptions. simpl. now rewrite H.
  - unfold Cjs.constructor, PoolPath.poolOptions. simpl. now rewrite H.
  - unfold Cjs.constructor. simpl. now rewrite H.
  - unfold Dual.poolConfig, PoolPath.poolOptions. simpl. rewrite H.
    rewrite get_set_other by discriminate. apply get_set_same.
  - unfold Dual.poolConfig. simpl. now rewrite H.
  - unfold Dual.poolConfig. simpl. now rewrite H.
Qed.

(** X20 on a user given without a password: the user appears nowhere. *)
Lemma X20_partial_credentials_are_ignored_witness :
  NativePath.prepareConnectionString "17" MoreSamples.userWithoutPassword
  = "Driver={ODBC Driver 17 for SQL Server};Server=HOST;Database=master;Trusted_Connection=Yes;"
  /\ PoolConfig.user (Dual.poolConfig MoreSamples.userWithoutPassword) = None.
Proof.
  destruct (X20_partial_credentials_are_ignored "17" MoreSamples.userWithoutPassword eq_refl)
    as (Hcs & _ & _ & _ & _ & Huser & _).
  split; [rewrite Hcs; reflexivity | exact Huser].
Defined.

(** X16 on a CommonJS adapter that fell back to direct calls. *)
Lemma X16_connection_method_matches_dispatch_witness :
  let this :=
    fst (snd (Cjs.init Samples.poolDown (Cjs.constructor Samples.hostOnly) [])) in
  Metadata.connectionMethod (Metadata.ofCjs this) = Some "direct msnodesqlv8"
  /\ (Lifetime.isNativeEvent
        (NativeQuery (Cjs.directConnectionString this) "SELECT 1" None) = true
      <-> Metadata.connectionMethod (Metadata.ofCjs this) = Some "direct msnodesqlv8").
Proof.
  cbv zeta.
  destruct (X16_connection_method_matches_dispatch Samples.poolDown
              (fst (snd (Cjs.init Samples.poolDown (Cjs.constructor Samples.hostOnly) [])))
              Samples.hostOnly "SELECT 1" [] []) as (_ & _ & _ & Hd & _ & Hall).
  split.
  - apply Hd. reflexivity.
  - apply Hall. reflexivity.
Defined.
